(** * The wallet ledger of [users/wallets/models.py]

    A shallow embedding of the two Django models [UserWallet] and
    [WalletTransaction] and of the operations that move money between
    them, followed by the properties of the ledger.

    Conventions of the embedding.
    - A [Decimal] amount with two places is an integer number of minor
      units (cents): [Decimal('100.00')] is [10000].  Addition,
      subtraction and comparison of such decimals are exact, so [Z]
      arithmetic is what the code computes.
    - A table is the list of its rows in insertion order and the primary
      key of a row is its position; rows of these two tables are never
      deleted by the operations below.  Fetching a row by key yields an
      instance whose [id] is that key.
    - A model instance (a Python object) is a record value.  A method that
      mutates [self] returns the mutated instance; [save(update_fields=…)]
      copies exactly the listed columns of the instance into the row whose
      key is [self.id].
    - [timezone.now()] is the argument [now] of an operation; an aware
      datetime is its number of microseconds since the epoch (UTC).  The
      current time zone of the project ([TIME_ZONE]) is an argument [tz]
      of the two queries that read dates through it.
    - A [DecimalField] holds the amounts of at most [max_digits] digits:
      storing another raises, and so does [objects.get] on a row that
      holds another.
    - Every [ValueError] of the source is one constructor of [Error],
      chosen by its message.
    - The free-text column [description] and the columns [fee], [metadata]
      and the audit columns take no part in any computation and are left
      out of the records. *)

From stdpp Require Import base option list strings pretty.
From Stdlib Require Import ZArith Lia.

Local Open Scope Z_scope.

(** ** Time *)

Definition datetime := Z.

Definition microseconds_per_day : Z := 86400 * 1000000.

(** [timezone.timedelta(days=n)] *)
Definition timedelta_days (n : Z) : Z := n * microseconds_per_day.

(** Proleptic Gregorian date of a day number (days since 1970-01-01),
    as [datetime.date] has it. *)
Definition civil_from_days (z : Z) : Z * Z * Z :=
  let z := z + 719468 in
  let era := z / 146097 in
  let doe := z - era * 146097 in
  let yoe := (doe - doe / 1460 + doe / 36524 - doe / 146096) / 365 in
  let y := yoe + era * 400 in
  let doy := doe - (365 * yoe + yoe / 4 - yoe / 100) in
  let mp := (5 * doy + 2) / 153 in
  let d := doy - (153 * mp + 2) / 5 + 1 in
  let m := if mp <? 10 then mp + 3 else mp - 9 in
  (if m <=? 2 then y + 1 else y, m, d).

(** [dt.date()], [dt.year], [dt.month] *)
Definition date_of (t : datetime) : Z * Z * Z :=
  civil_from_days (t / microseconds_per_day).
Definition year_of (t : datetime) : Z := (date_of t).1.1.
Definition month_of (t : datetime) : Z := (date_of t).1.2.

(** The current time zone: its offset from UTC, in microseconds, at each
    instant.  With [USE_TZ = False] every datetime is a naive local time
    and the offset is zero. *)
Definition TimeZone := datetime → Z.
Definition UTC : TimeZone := λ _, 0.

(** [timezone.localtime(t)], as the lookups [__date], [__year] and
    [__month] read a stored datetime. *)
Definition localtime (tz : TimeZone) (t : datetime) : datetime := t + tz t.

(** ** Enumerated columns *)

(** [UserWallet.CURRENCY_CHOICES] *)
Inductive Currency := CNY | USD | EUR | GBP | JPY | HKD | TWD.

(** [UserWallet.WALLET_STATUS_CHOICES] *)
Inductive WalletStatus := normal | frozen | suspended | closed.

(** [WalletTransaction.TRANSACTION_TYPE_CHOICES] *)
Inductive TransactionType :=
  | t_deposit | t_withdraw | t_transfer_in | t_transfer_out | t_payment
  | t_refund | t_freeze | t_unfreeze | t_freeze_wallet | t_unfreeze_wallet
  | t_adjustment | t_reward | t_penalty.

(** [WalletTransaction.TRANSACTION_STATUS_CHOICES] *)
Inductive TransactionStatus :=
  | pending | processing | completed | failed | cancelled | refunded.

(** [StatusMixin.STATUS_CHOICES] *)
Inductive RecordStatus :=
  | st_active | st_inactive | st_pending | st_approved | st_rejected
  | st_suspended.

Global Instance Currency_eq_dec : EqDecision Currency.
Proof. solve_decision. Defined.
Global Instance WalletStatus_eq_dec : EqDecision WalletStatus.
Proof. solve_decision. Defined.
Global Instance TransactionType_eq_dec : EqDecision TransactionType.
Proof. solve_decision. Defined.
Global Instance TransactionStatus_eq_dec : EqDecision TransactionStatus.
Proof. solve_decision. Defined.
Global Instance RecordStatus_eq_dec : EqDecision RecordStatus.
Proof. solve_decision. Defined.

(** ** The two models *)

Record UserWallet := mkUserWallet {
  id : nat;
  user : nat;
  currency : Currency;
  balance : Z;
  frozen_balance : Z;
  total_income : Z;
  total_expense : Z;
  wallet_status : WalletStatus;
  is_active : bool;
  daily_limit : Z;
  monthly_limit : Z;
  last_transaction_at : option datetime;
  updated_at : datetime;
  record_status : RecordStatus   (* the column [status] of [StatusMixin] *)
}.

Record WalletTransaction := mkWalletTransaction {
  tx_id : nat;
  wallet : nat;
  transaction_type : TransactionType;
  amount : Z;
  balance_after : Z;
  status : TransactionStatus;
  source : string;
  destination : string;
  reference_id : string;
  created_at : datetime;
  tx_updated_at : datetime
}.

(** Attribute assignment on an instance. *)
Definition set_id (v : nat) (w : UserWallet) : UserWallet :=
  mkUserWallet v (user w) (currency w) (balance w) (frozen_balance w)
    (total_income w) (total_expense w) (wallet_status w) (is_active w)
    (daily_limit w) (monthly_limit w) (last_transaction_at w) (updated_at w)
    (record_status w).
Definition set_balance (v : Z) (w : UserWallet) : UserWallet :=
  mkUserWallet (id w) (user w) (currency w) v (frozen_balance w)
    (total_income w) (total_expense w) (wallet_status w) (is_active w)
    (daily_limit w) (monthly_limit w) (last_transaction_at w) (updated_at w)
    (record_status w).
Definition set_frozen_balance (v : Z) (w : UserWallet) : UserWallet :=
  mkUserWallet (id w) (user w) (currency w) (balance w) v
    (total_income w) (total_expense w) (wallet_status w) (is_active w)
    (daily_limit w) (monthly_limit w) (last_transaction_at w) (updated_at w)
    (record_status w).
Definition set_total_income (v : Z) (w : UserWallet) : UserWallet :=
  mkUserWallet (id w) (user w) (currency w) (balance w) (frozen_balance w)
    v (total_expense w) (wallet_status w) (is_active w)
    (daily_limit w) (monthly_limit w) (last_transaction_at w) (updated_at w)
    (record_status w).
Definition set_total_expense (v : Z) (w : UserWallet) : UserWallet :=
  mkUserWallet (id w) (user w) (currency w) (balance w) (frozen_balance w)
    (total_income w) v (wallet_status w) (is_active w)
    (daily_limit w) (monthly_limit w) (last_transaction_at w) (updated_at w)
    (record_status w).
Definition set_wallet_status (v : WalletStatus) (w : UserWallet) : UserWallet :=
  mkUserWallet (id w) (user w) (currency w) (balance w) (frozen_balance w)
    (total_income w) (total_expense w) v (is_active w)
    (daily_limit w) (monthly_limit w) (last_transaction_at w) (updated_at w)
    (record_status w).
Definition set_last_transaction_at (v : option datetime) (w : UserWallet)
  : UserWallet :=
  mkUserWallet (id w) (user w) (currency w) (balance w) (frozen_balance w)
    (total_income w) (total_expense w) (wallet_status w) (is_active w)
    (daily_limit w) (monthly_limit w) v (updated_at w) (record_status w).
Definition set_updated_at (v : datetime) (w : UserWallet) : UserWallet :=
  mkUserWallet (id w) (user w) (currency w) (balance w) (frozen_balance w)
    (total_income w) (total_expense w) (wallet_status w) (is_active w)
    (daily_limit w) (monthly_limit w) (last_transaction_at w) v
    (record_status w).

Definition set_tx_id (v : nat) (t : WalletTransaction) : WalletTransaction :=
  mkWalletTransaction v (wallet t) (transaction_type t) (amount t)
    (balance_after t) (status t) (source t) (destination t) (reference_id t)
    (created_at t) (tx_updated_at t).
Definition set_status (v : TransactionStatus) (t : WalletTransaction)
  : WalletTransaction :=
  mkWalletTransaction (tx_id t) (wallet t) (transaction_type t) (amount t)
    (balance_after t) v (source t) (destination t) (reference_id t)
    (created_at t) (tx_updated_at t).
Definition set_tx_updated_at (v : datetime) (t : WalletTransaction)
  : WalletTransaction :=
  mkWalletTransaction (tx_id t) (wallet t) (transaction_type t) (amount t)
    (balance_after t) (status t) (source t) (destination t) (reference_id t)
    (created_at t) v.

(** ** The database and the monad of a unit of work *)

Record DB := mkDB {
  wallets : list UserWallet;
  transactions : list WalletTransaction
}.

Inductive Error :=
  | InvalidAmountError            (* amount <= 0 *)
  | InsufficientFundsError        (* balance < amount *)
  | InsufficientFrozenBalanceError(* frozen_balance < amount *)
  | AccountStatusError            (* wallet_status != 'normal' *)
  | AccountDisabledError          (* not is_active *)
  | CurrencyMismatchError         (* currencies differ *)
  | RefundIneligibleError         (* not can_refund() *)
  | YearOutOfRangeError           (* a year that is no calendar year *)
  | DoesNotExist                  (* no row with that key *)
  | DatabaseError                 (* save(update_fields) touched no row *)
  | IntegrityError                (* unique or foreign key violated *)
  | InvalidOperation.             (* decimal.InvalidOperation: a value of
                                     more digits than its column has *)

Inductive Result (A : Type) :=
  | Ok (a : A)
  | Raise (e : Error).
Arguments Ok {A} a.
Arguments Raise {A} e.

(** A computation reads and writes the database and may raise; the
    database it leaves behind is part of the result also when it raises. *)
Definition M (A : Type) : Type := DB → Result A * DB.

Global Instance M_ret : MRet M := λ A a db, (Ok a, db).
Global Instance M_bind : MBind M := λ A B f m db,
  match m db with
  | (Ok a, db') => f a db'
  | (Raise e, db') => (Raise e, db')
  end.

Definition raise {A} (e : Error) : M A := λ db, (Raise e, db).

(** [with transaction.atomic():] — an exception leaving the block rolls
    the database back to the state at entry. *)
Definition atomic {A} (m : M A) : M A := λ db,
  match m db with
  | (Ok a, db') => (Ok a, db')
  | (Raise e, _) => (Raise e, db)
  end.

(** ** Persistence: [objects.get], [save], [objects.create] *)

(** A [DecimalField(max_digits=n, decimal_places=2)] holds the amounts
    that have, with their two places, at most [n] digits: in cents, the
    integers between [-10^n] and [10^n], both excluded.  The field
    quantizes a value to two places in a context of [n] digits, on its
    way to the database and back, and that raises
    [decimal.InvalidOperation] for any other value. *)
Definition fits (max_digits : Z) (v : Z) : bool :=
  (- 10 ^ max_digits <? v) && (v <? 10 ^ max_digits).

(** The decimal columns of a wallet row and of a ledger row, with the
    digits they are declared with. *)
Definition readable (w : UserWallet) : bool :=
  fits 15 (balance w) && fits 15 (frozen_balance w)
  && fits 15 (total_income w) && fits 15 (total_expense w)
  && fits 10 (daily_limit w) && fits 12 (monthly_limit w).

Definition tx_readable (t : WalletTransaction) : bool :=
  fits 15 (amount t) && fits 15 (balance_after t).

Arguments fits : simpl never.
Arguments readable : simpl never.
Arguments tx_readable : simpl never.

(** [UserWallet.objects.get(pk=pk)] *)
Definition get_wallet (pk : nat) : M UserWallet := λ db,
  match wallets db !! pk with
  | Some w =>
      if readable w then (Ok (set_id pk w), db)
      else (Raise InvalidOperation, db)
  | None => (Raise DoesNotExist, db)
  end.

(** [WalletTransaction.objects.get(pk=pk)] *)
Definition get_transaction (pk : nat) : M WalletTransaction := λ db,
  match transactions db !! pk with
  | Some t =>
      if tx_readable t then (Ok (set_tx_id pk t), db)
      else (Raise InvalidOperation, db)
  | None => (Raise DoesNotExist, db)
  end.

Inductive WalletField :=
  | f_balance | f_frozen_balance | f_total_income | f_total_expense
  | f_last_transaction_at | f_wallet_status | f_updated_at.

Global Instance WalletField_eq_dec : EqDecision WalletField.
Proof. solve_decision. Defined.

Definition has_field (f : WalletField) (fields : list WalletField) : bool :=
  existsb (λ g, bool_decide (g = f)) fields.

(** Copy one column of instance [self] into [row]. *)
Definition copy_field (self : UserWallet) (f : WalletField) (row : UserWallet)
  : UserWallet :=
  match f with
  | f_balance => set_balance (balance self) row
  | f_frozen_balance => set_frozen_balance (frozen_balance self) row
  | f_total_income => set_total_income (total_income self) row
  | f_total_expense => set_total_expense (total_expense self) row
  | f_last_transaction_at =>
      set_last_transaction_at (last_transaction_at self) row
  | f_wallet_status => set_wallet_status (wallet_status self) row
  | f_updated_at => set_updated_at (updated_at self) row
  end.

(** Whether the value that [self] has for column [f] can be stored; the
    four decimal columns among the fields have 15 digits. *)
Definition storable (self : UserWallet) (f : WalletField) : bool :=
  match f with
  | f_balance => fits 15 (balance self)
  | f_frozen_balance => fits 15 (frozen_balance self)
  | f_total_income => fits 15 (total_income self)
  | f_total_expense => fits 15 (total_expense self)
  | f_last_transaction_at | f_wallet_status | f_updated_at => true
  end.

(** [self.save(update_fields=fields)] on a wallet.  [updated_at] is an
    [auto_now] column: when listed it is first set to the current time on
    the instance.  The values of the listed columns are prepared for the
    database before the row is written, which raises for a decimal that
    its column cannot hold.  An update that matches no row raises. *)
Definition save (now : datetime) (self : UserWallet)
    (fields : list WalletField) : M UserWallet := λ db,
  let self := if has_field f_updated_at fields
              then set_updated_at now self else self in
  if negb (forallb (storable self) fields) then (Raise InvalidOperation, db)
  else
    match wallets db !! id self with
    | Some row =>
        (Ok self,
         mkDB (<[id self := foldr (copy_field self) row fields]> (wallets db))
              (transactions db))
    | None => (Raise DatabaseError, db)
    end.

(** [self.save(update_fields=['status', 'updated_at'])] on a transaction,
    the only way a ledger row is ever rewritten. *)
Definition save_status (now : datetime) (self : WalletTransaction)
  : M WalletTransaction := λ db,
  let self := set_tx_updated_at now self in
  match transactions db !! tx_id self with
  | Some row =>
      (Ok self,
       mkDB (wallets db)
            (<[tx_id self :=
                 set_tx_updated_at (tx_updated_at self)
                   (set_status (status self) row)]> (transactions db)))
  | None => (Raise DatabaseError, db)
  end.

(** [WalletTransaction.objects.create(wallet=…, …)]: the new row gets the
    next key, [status] defaults to ['completed'], [created_at] is
    [auto_now_add]; [amount] and [balance_after] must fit their columns of
    15 digits, and the foreign key must name an existing wallet. *)
Definition objects_create (now : datetime) (wallet_id : nat)
    (ttype : TransactionType) (amount balance_after : Z)
    (source destination reference_id : string) : M WalletTransaction := λ db,
  if negb (fits 15 amount && fits 15 balance_after)
  then (Raise InvalidOperation, db)
  else if bool_decide (wallet_id < length (wallets db))%nat then
    let t := mkWalletTransaction (length (transactions db)) wallet_id ttype
               amount balance_after completed source destination
               reference_id now now in
    (Ok t, mkDB (wallets db) (transactions db ++ [t]))
  else (Raise IntegrityError, db).

(** ** [UserWallet] *)

(** [total_balance] *)
Definition total_balance (self : UserWallet) : Z :=
  balance self + frozen_balance self.

(** [available_balance] *)
Definition available_balance (self : UserWallet) : Z := balance self.

(** The message returned by [can_spend], next to its boolean. *)
Inductive Reason :=
  | wallet_status_abnormal (st : WalletStatus)
  | wallet_disabled
  | balance_insufficient
  | spendable.

Definition can_spend (self : UserWallet) (amount : Z) : bool * Reason :=
  if bool_decide (wallet_status self ≠ normal) then
    (false, wallet_status_abnormal (wallet_status self))
  else if negb (is_active self) then (false, wallet_disabled)
  else if balance self <? amount then (false, balance_insufficient)
  else (true, spendable).

(** The failure that [raise ValueError(f'…: {reason}')] stands for. *)
Definition error_of_reason (r : Reason) : Error :=
  match r with
  | wallet_status_abnormal _ => AccountStatusError
  | wallet_disabled => AccountDisabledError
  | balance_insufficient => InsufficientFundsError
  | spendable => InsufficientFundsError
  end.

Definition create_transaction (now : datetime) (self : UserWallet)
    (ttype : TransactionType) (amount : Z)
    (source destination reference_id : string) : M WalletTransaction :=
  objects_create now (id self) ttype amount (balance self)
    source destination reference_id.

Definition freeze_amount (now : datetime) (self : UserWallet) (amount : Z)
  : M UserWallet :=
  if amount <=? 0 then raise InvalidAmountError
  else if balance self <? amount then raise InsufficientFundsError
  else atomic (
    let self := set_balance (balance self - amount) self in
    let self := set_frozen_balance (frozen_balance self + amount) self in
    self ← save now self [f_balance; f_frozen_balance; f_updated_at];
    create_transaction now self t_freeze amount "" "" "";;
    mret self).

Definition unfreeze_amount (now : datetime) (self : UserWallet) (amount : Z)
  : M UserWallet :=
  if amount <=? 0 then raise InvalidAmountError
  else if frozen_balance self <? amount
    then raise InsufficientFrozenBalanceError
  else atomic (
    let self := set_frozen_balance (frozen_balance self - amount) self in
    let self := set_balance (balance self + amount) self in
    self ← save now self [f_balance; f_frozen_balance; f_updated_at];
    create_transaction now self t_unfreeze amount "" "" "";;
    mret self).

Definition deposit (now : datetime) (self : UserWallet) (amount : Z)
    (source reference_id : string) : M (UserWallet * WalletTransaction) :=
  if amount <=? 0 then raise InvalidAmountError
  else atomic (
    let self := set_balance (balance self + amount) self in
    let self := set_total_income (total_income self + amount) self in
    let self := set_last_transaction_at (Some now) self in
    self ← save now self
      [f_balance; f_total_income; f_last_transaction_at; f_updated_at];
    t ← create_transaction now self t_deposit amount source "" reference_id;
    mret (self, t)).

Definition withdraw (now : datetime) (self : UserWallet) (amount : Z)
    (destination reference_id : string)
  : M (UserWallet * WalletTransaction) :=
  if amount <=? 0 then raise InvalidAmountError
  else
    let '(ok, reason) := can_spend self amount in
    if negb ok then raise (error_of_reason reason)
    else atomic (
      let self := set_balance (balance self - amount) self in
      let self := set_total_expense (total_expense self + amount) self in
      let self := set_last_transaction_at (Some now) self in
      self ← save now self
        [f_balance; f_total_expense; f_last_transaction_at; f_updated_at];
      t ← create_transaction now self t_withdraw amount
            "" destination reference_id;
      mret (self, t)).

(** [self] and [target_wallet] are two instances; each is saved to the row
    of its own key. *)
Definition transfer_to (now : datetime) (self target_wallet : UserWallet)
    (amount : Z) (reference_id : string)
  : M (UserWallet * UserWallet * WalletTransaction * WalletTransaction) :=
  if amount <=? 0 then raise InvalidAmountError
  else if bool_decide (currency target_wallet ≠ currency self)
    then raise CurrencyMismatchError
  else
    let '(ok, reason) := can_spend self amount in
    if negb ok then raise (error_of_reason reason)
    else atomic (
      let self := set_balance (balance self - amount) self in
      let self := set_total_expense (total_expense self + amount) self in
      let self := set_last_transaction_at (Some now) self in
      self ← save now self
        [f_balance; f_total_expense; f_last_transaction_at; f_updated_at];
      let target_wallet :=
        set_balance (balance target_wallet + amount) target_wallet in
      let target_wallet :=
        set_total_income (total_income target_wallet + amount)
          target_wallet in
      let target_wallet := set_last_transaction_at (Some now) target_wallet in
      target_wallet ← save now target_wallet
        [f_balance; f_total_income; f_last_transaction_at; f_updated_at];
      transfer_out ← create_transaction now self t_transfer_out amount
        "" ("user_" +:+ pretty (user target_wallet)) reference_id;
      transfer_in ← create_transaction now target_wallet t_transfer_in amount
        ("user_" +:+ pretty (user self)) "" reference_id;
      mret (self, target_wallet, transfer_out, transfer_in)).

(** [get_daily_spent]: the rows of the query set are summed by Python's
    [sum], from [0]. *)
Definition spending_types : list TransactionType :=
  [t_withdraw; t_transfer_out; t_payment].

(** The default date is [timezone.now().date()], the date of [now] in
    UTC; the lookup [created_at__date] takes the date of a row in the
    current time zone. *)
Definition get_daily_spent (tz : TimeZone) (now : datetime)
    (self : UserWallet) (date : option (Z * Z * Z)) (db : DB) : Z :=
  let date := match date with Some d => d | None => date_of now end in
  let daily_transactions :=
    filter (λ t, wallet t = id self
                 ∧ transaction_type t ∈ spending_types
                 ∧ date_of (localtime tz (created_at t)) = date)
      (transactions db) in
  foldl Z.add 0 (amount <$> daily_transactions).

(** [if not year] holds for [None] and for [0]. *)
Definition or_current (arg : option Z) (current : Z) : Z :=
  match arg with
  | Some v => if v =? 0 then current else v
  | None => current
  end.

(** The defaults are [now.year] and [now.month] of [timezone.now()], in
    UTC; the lookups [created_at__year] and [created_at__month] read a
    row in the current time zone.  The lookup by year is made from the
    first and the last instant of the year, which [datetime] builds for
    the years 1 to 9999 and refuses, with a [ValueError], for any other
    when the query runs. *)
Definition get_monthly_spent (tz : TimeZone) (now : datetime)
    (self : UserWallet) (year month : option Z) (db : DB) : Result Z :=
  let year := or_current year (year_of now) in
  let month := or_current month (month_of now) in
  if (1 <=? year) && (year <=? 9999) then
    let monthly_transactions :=
      filter (λ t, wallet t = id self
                   ∧ transaction_type t ∈ spending_types
                   ∧ year_of (localtime tz (created_at t)) = year
                   ∧ month_of (localtime tz (created_at t)) = month)
        (transactions db) in
    Ok (foldl Z.add 0 (amount <$> monthly_transactions))
  else Raise YearOutOfRangeError.

Definition freeze_wallet (now : datetime) (self : UserWallet)
  : M UserWallet :=
  let self := set_wallet_status frozen self in
  self ← save now self [f_wallet_status; f_updated_at];
  create_transaction now self t_freeze_wallet 0 "" "" "";;
  mret self.

Definition unfreeze_wallet (now : datetime) (self : UserWallet)
  : M UserWallet :=
  let self := set_wallet_status normal self in
  self ← save now self [f_wallet_status; f_updated_at];
  create_transaction now self t_unfreeze_wallet 0 "" "" "";;
  mret self.

(** ** [WalletTransaction] *)

Definition is_income (self : WalletTransaction) : bool :=
  bool_decide (transaction_type self
               ∈ [t_deposit; t_transfer_in; t_refund; t_reward]).

Definition is_expense (self : WalletTransaction) : bool :=
  bool_decide (transaction_type self
               ∈ [t_withdraw; t_transfer_out; t_payment; t_penalty]).

Definition can_refund (now : datetime) (self : WalletTransaction) : bool :=
  bool_decide (transaction_type self ∈ [t_payment])
  && bool_decide (status self = completed)
  && (now - timedelta_days 30 <=? created_at self).

(** [self.wallet] is fetched through the foreign key. *)
Definition process_refund (now : datetime) (self : WalletTransaction)
  : M WalletTransaction :=
  if negb (can_refund now self) then raise RefundIneligibleError
  else atomic (
    w ← get_wallet (wallet self);
    let w := set_balance (balance w + amount self) w in
    let w := set_total_income (total_income w + amount self) w in
    let w := set_last_transaction_at (Some now) w in
    w ← save now w
      [f_balance; f_total_income; f_last_transaction_at; f_updated_at];
    let self := set_status refunded self in
    self ← save_status now self;
    create_transaction now w t_refund (amount self)
      "" "" (pretty (tx_id self))).

(** ** Creating wallets: [UserWallet.objects] *)

(** The row that [UserWallet.objects.create(user=…, currency=…)] inserts:
    every other column takes its declared default. *)
Definition new_wallet (now : datetime) (pk owner : nat) (c : Currency)
  : UserWallet :=
  mkUserWallet pk owner c 0 0 0 0 normal true 1000000 10000000 None now
    st_active.

(** [user] is a [OneToOneField]: the table has a unique index on it, and
    an insert that repeats an owner raises. *)
Definition objects_create_wallet (now : datetime) (owner : nat)
    (c : Currency) : M UserWallet := λ db,
  if bool_decide (Exists (λ w, user w = owner) (wallets db)) then
    (Raise IntegrityError, db)
  else
    let w := new_wallet now (length (wallets db)) owner c in
    (Ok w, mkDB (wallets db ++ [w]) (transactions db)).

(** [UserWallet.objects.get_or_create(user=owner,
    defaults={'currency': c})], as [my_wallet] and [transfer] call it: the
    lookup is by owner alone. *)
Definition get_or_create (now : datetime) (owner : nat) (c : Currency)
  : M (UserWallet * bool) := λ db,
  match list_find (λ w, user w = owner) (wallets db) with
  | Some (pk, w) => (Ok (set_id pk w, false), db)
  | None => (w ← objects_create_wallet now owner c; mret (w, true)) db
  end.

(** ** Units of work

    One request of the calling layer: fetch the instance(s) by key, then
    call the method. *)

Inductive Op :=
  | op_deposit (pk : nat) (amount : Z) (source reference_id : string)
  | op_withdraw (pk : nat) (amount : Z) (destination reference_id : string)
  | op_freeze_amount (pk : nat) (amount : Z)
  | op_unfreeze_amount (pk : nat) (amount : Z)
  | op_transfer_to (pk target_pk : nat) (amount : Z) (reference_id : string)
  | op_process_refund (tx_pk : nat)
  | op_freeze_wallet (pk : nat)
  | op_unfreeze_wallet (pk : nat).

Definition exec (now : datetime) (op : Op) : M unit :=
  match op with
  | op_deposit pk amount source reference_id =>
      w ← get_wallet pk; deposit now w amount source reference_id;; mret ()
  | op_withdraw pk amount destination reference_id =>
      w ← get_wallet pk;
      withdraw now w amount destination reference_id;; mret ()
  | op_freeze_amount pk amount =>
      w ← get_wallet pk; freeze_amount now w amount;; mret ()
  | op_unfreeze_amount pk amount =>
      w ← get_wallet pk; unfreeze_amount now w amount;; mret ()
  | op_transfer_to pk target_pk amount reference_id =>
      w ← get_wallet pk;
      target_wallet ← get_wallet target_pk;
      transfer_to now w target_wallet amount reference_id;; mret ()
  | op_process_refund tx_pk =>
      t ← get_transaction tx_pk; process_refund now t;; mret ()
  | op_freeze_wallet pk =>
      w ← get_wallet pk; freeze_wallet now w;; mret ()
  | op_unfreeze_wallet pk =>
      w ← get_wallet pk; unfreeze_wallet now w;; mret ()
  end.

(** ** Predicates on databases *)

Definition wallet_ok (w : UserWallet) : Prop :=
  0 ≤ balance w ∧ 0 ≤ frozen_balance w.

Definition balances_nonneg (db : DB) : Prop := Forall wallet_ok (wallets db).

(** The declared minimum of the [amount] column
    ([MinValueValidator(Decimal('0.00'))]). *)
Definition amounts_nonneg (db : DB) : Prop :=
  Forall (λ t, 0 ≤ amount t) (transactions db).

(** The unique index that the [OneToOneField] puts on [user]. *)
Definition owners_unique (db : DB) : Prop := NoDup (user <$> wallets db).

(** A history is a list of operations, each with the time at which it
    runs; an operation that raises leaves the database as [exec] left it.
    [states] lists the database before the first operation and after each
    one. *)
Fixpoint states (ops : list (datetime * Op)) (db : DB) : list DB :=
  db :: match ops with
        | [] => []
        | (now, op) :: ops => states ops (exec now op db).2
        end.

(** The same database with other spending limits on every wallet. *)
Definition set_limits (daily monthly : Z) (w : UserWallet) : UserWallet :=
  mkUserWallet (id w) (user w) (currency w) (balance w) (frozen_balance w)
    (total_income w) (total_expense w) (wallet_status w) (is_active w)
    daily monthly (last_transaction_at w) (updated_at w)
    (record_status w).


(** When a unit of work commits: the wallet(s) or the entry exist and can
    be read, the guards of the method pass, and the amounts that the
    method writes fit their columns.  No period aggregate occurs among
    the conditions, and a limit only in that the row must be readable. *)
Definition permitted (now : datetime) (op : Op) (db : DB) : Prop :=
  match op with
  | op_deposit pk a _ _ =>
      ∃ w, wallets db !! pk = Some w ∧ readable w = true ∧ 0 < a
           ∧ fits 15 a = true ∧ fits 15 (balance w + a) = true
           ∧ fits 15 (total_income w + a) = true
  | op_withdraw pk a _ _ =>
      ∃ w, wallets db !! pk = Some w ∧ readable w = true ∧ 0 < a
           ∧ wallet_status w = normal ∧ is_active w = true ∧ a ≤ balance w
           ∧ fits 15 (total_expense w + a) = true
  | op_freeze_amount pk a =>
      ∃ w, wallets db !! pk = Some w ∧ readable w = true
           ∧ 0 < a ∧ a ≤ balance w
           ∧ fits 15 (frozen_balance w + a) = true
  | op_unfreeze_amount pk a =>
      ∃ w, wallets db !! pk = Some w ∧ readable w = true
           ∧ 0 < a ∧ a ≤ frozen_balance w
           ∧ fits 15 (balance w + a) = true
  | op_transfer_to pk target_pk a _ =>
      ∃ w r, wallets db !! pk = Some w ∧ wallets db !! target_pk = Some r
             ∧ readable w = true ∧ readable r = true
             ∧ 0 < a ∧ currency r = currency w
             ∧ wallet_status w = normal ∧ is_active w = true
             ∧ a ≤ balance w
             ∧ fits 15 (total_expense w + a) = true
             ∧ fits 15 (balance r + a) = true
             ∧ fits 15 (total_income r + a) = true
  | op_process_refund tx_pk =>
      ∃ t w, transactions db !! tx_pk = Some t
             ∧ wallets db !! wallet t = Some w
             ∧ tx_readable t = true ∧ readable w = true
             ∧ can_refund now t = true
             ∧ fits 15 (balance w + amount t) = true
             ∧ fits 15 (total_income w + amount t) = true
  | op_freeze_wallet pk | op_unfreeze_wallet pk =>
      ∃ w, wallets db !! pk = Some w ∧ readable w = true
  end.

(** ** The period aggregates, in the words of the specification

    [dailySpent] and [monthlySpent] are the sum of [amount] over the
    entries of the account whose kind is withdraw, transfer_out or payment
    and whose [created_at] falls in the period, a date or a calendar
    month of the current time zone.  They are compared with
    [get_daily_spent] and [get_monthly_spent] below. *)

Definition is_spending (t : WalletTransaction) : bool :=
  match transaction_type t with
  | t_withdraw | t_transfer_out | t_payment => true
  | _ => false
  end.

Fixpoint sum_amounts (counted : WalletTransaction → bool)
    (ledger : list WalletTransaction) : Z :=
  match ledger with
  | [] => 0
  | t :: ledger =>
      (if counted t then amount t else 0) + sum_amounts counted ledger
  end.

Definition dailySpent (tz : TimeZone) (account : nat) (date : Z * Z * Z)
    (ledger : list WalletTransaction) : Z :=
  sum_amounts
    (λ t, bool_decide (wallet t = account) && is_spending t
          && bool_decide (date_of (localtime tz (created_at t)) = date))
    ledger.


(** ** Sample databases *)

(** 2024-03-01 00:00:00 UTC and the days around it. *)
Definition day (n : Z) : datetime := (19783 + n) * microseconds_per_day.

(** Two wallets in the same currency holding 100.00 and 50.00. *)
Definition alice : UserWallet := set_balance 10000 (new_wallet (day 0) 0 1 CNY).
Definition bob : UserWallet := set_balance 5000 (new_wallet (day 0) 1 2 CNY).
Definition two_wallets : DB := mkDB [alice; bob] [].

(** A wallet in euros next to one in yuan. *)
Definition carol : UserWallet := set_balance 5000 (new_wallet (day 0) 1 3 EUR).
Definition mixed_wallets : DB := mkDB [alice; carol] [].

(** A closed wallet holding 100.00. *)
Definition closed_wallet : DB := mkDB [set_wallet_status closed alice] [].

(** A payment of 50.00 made from [alice]'s wallet on [day 0]. *)
Definition payment_entry (created : datetime) (amount : Z)
  : WalletTransaction :=
  mkWalletTransaction 0 0 t_payment amount 10000 completed "" "shop" "order-1"
    created created.
Definition paid : DB := mkDB [alice] [payment_entry (day 0) 5000].

(** A ledger of March and April 2024 for the wallets 0 and 1. *)
Definition entry (wallet_id : nat) (ttype : TransactionType) (amount : Z)
    (created : datetime) : WalletTransaction :=
  mkWalletTransaction 0 wallet_id ttype amount 0 completed "" "" ""
    created created.
Definition spring_ledger : DB :=
  mkDB [alice; bob]
    [entry 0 t_payment 5000 (day 0); entry 0 t_withdraw 1000 (day 0);
     entry 0 t_deposit 700 (day 0); entry 0 t_penalty 300 (day 0);
     entry 1 t_withdraw 900 (day 0); entry 0 t_transfer_out 250 (day 30);
     entry 0 t_withdraw 200 (day 40)].

(** A wallet whose balance is the largest that its column holds, and a
    payment of 50.00 made from it. *)
Definition brimful : DB :=
  mkDB [set_balance 999999999999999 alice] [payment_entry (day 0) 5000].

(** [alice]'s wallet next to one whose balance is the largest that its
    column holds, and a wallet whose frozen balance is. *)
Definition brimful_receiver : DB :=
  mkDB [alice; set_balance 999999999999999 bob] [].
Definition brimful_hold : DB :=
  mkDB [set_frozen_balance 999999999999999 alice] [].

(** A wallet whose frozen balance is below zero, which no validator of
    [save] prevents. *)
Definition overdrawn_hold : DB :=
  mkDB [set_frozen_balance (-500) alice] [].

(** An empty wallet whose ledger holds a payment row with a negative
    amount, written past the validators of the column. *)
Definition negative_payment : DB :=
  mkDB [new_wallet (day 0) 0 1 CNY] [payment_entry (day 0) (-500)].

(** ** Quantities followed through the operations *)

(** The lifetime totals account for the money in the wallet. *)
Definition books_balanced (w : UserWallet) : Prop :=
  balance w + frozen_balance w = total_income w - total_expense w.

(** A transfer whose receiver is the row of the sender. *)
Definition same_row_transfer (op : Op) : Prop :=
  match op with
  | op_transfer_to pk target_pk _ _ => pk = target_pk
  | _ => False
  end.

(** What an operation adds to the spending of wallet [pk]. *)
Definition spend_of (op : Op) (pk : nat) : Z :=
  match op with
  | op_withdraw p a _ _ => if bool_decide (p = pk) then a else 0
  | op_transfer_to p _ a _ => if bool_decide (p = pk) then a else 0
  | _ => 0
  end.

(** The money held in all wallets. *)
Definition holdings (ws : list UserWallet) : Z :=
  foldr (λ w acc, total_balance w + acc) 0 ws.

(** What an operation brings into the system or takes out of it. *)
Definition net_flow (op : Op) (db : DB) : Z :=
  match op with
  | op_deposit _ a _ _ => a
  | op_withdraw _ a _ _ => - a
  | op_process_refund tx_pk =>
      match transactions db !! tx_pk with
      | Some t => amount t
      | None => 0
      end
  | _ => 0
  end.

(** ** Derived attributes, validation and list filters *)

(** [UserWallet.balance_status] *)
Definition balance_status (self : UserWallet) : string :=
  if balance self <=? 0 then "empty"
  else if balance self <? 10000 then "low"
  else if balance self <? 100000 then "normal"
  else "high".

(** [UserWalletFilterSet.filter_balance_status] *)
Definition filter_balance_status (queryset : list UserWallet)
    (value : string) : list UserWallet :=
  if bool_decide (value = "empty") then
    filter (λ w, balance w = 0) queryset
  else if bool_decide (value = "low") then
    filter (λ w, 0 < balance w ∧ balance w < 10000) queryset
  else if bool_decide (value = "normal") then
    filter (λ w, 10000 ≤ balance w ∧ balance w < 100000) queryset
  else if bool_decide (value = "high") then
    filter (λ w, 100000 ≤ balance w) queryset
  else queryset.

(** [UserWallet.clean]: the field whose [ValidationError] is raised, if
    any. *)
Inductive ValidationError :=
  | invalid_balance | invalid_frozen_balance | invalid_daily_limit.

Definition clean (self : UserWallet) : option ValidationError :=
  if balance self <? 0 then Some invalid_balance
  else if frozen_balance self <? 0 then Some invalid_frozen_balance
  else if monthly_limit self <? daily_limit self then Some invalid_daily_limit
  else None.

(** [WalletTransactionFilterSet.filter_flow_type] *)
Definition filter_flow_type (queryset : list WalletTransaction)
    (value : string) : list WalletTransaction :=
  if bool_decide (value = "income") then
    filter (λ t, transaction_type t
                 ∈ [t_deposit; t_transfer_in; t_refund; t_reward]) queryset
  else if bool_decide (value = "expense") then
    filter (λ t, transaction_type t
                 ∈ [t_withdraw; t_transfer_out; t_payment; t_penalty])
      queryset
  else if bool_decide (value = "neutral") then
    filter (λ t, transaction_type t
                 ∈ [t_freeze; t_unfreeze; t_freeze_wallet;
                    t_unfreeze_wallet; t_adjustment]) queryset
  else queryset.

(** [WalletTransactionFilterSet.filter_can_refund]; [exclude(a, b)] drops
    the rows on which both conditions hold. *)
Definition filter_can_refund (now : datetime)
    (queryset : list WalletTransaction) (value : bool)
  : list WalletTransaction :=
  if value then
    filter (λ t, transaction_type t ∈ [t_payment]
                 ∧ status t = completed
                 ∧ now - timedelta_days 30 ≤ created_at t) queryset
  else
    filter (λ t, ¬ (transaction_type t = t_payment ∧ status t = completed))
      queryset.

(** ** [StatusMixin] on a wallet *)

Definition set_is_active (v : bool) (w : UserWallet) : UserWallet :=
  mkUserWallet (id w) (user w) (currency w) (balance w) (frozen_balance w)
    (total_income w) (total_expense w) (wallet_status w) v
    (daily_limit w) (monthly_limit w) (last_transaction_at w) (updated_at w)
    (record_status w).
Definition set_record_status (v : RecordStatus) (w : UserWallet)
  : UserWallet :=
  mkUserWallet (id w) (user w) (currency w) (balance w) (frozen_balance w)
    (total_income w) (total_expense w) (wallet_status w) (is_active w)
    (daily_limit w) (monthly_limit w) (last_transaction_at w) (updated_at w)
    v.

(** [self.save(update_fields=['is_active', 'status'])]: the two columns of
    the mixin are written; [updated_at] is not listed and stays. *)
Definition save_is_active (self : UserWallet) : M UserWallet := λ db,
  match wallets db !! id self with
  | Some row =>
      (Ok self,
       mkDB (<[id self := set_record_status (record_status self)
                            (set_is_active (is_active self) row)]>
               (wallets db))
            (transactions db))
  | None => (Raise DatabaseError, db)
  end.

(** [StatusMixin.activate] *)
Definition activate (self : UserWallet) : M UserWallet :=
  let self := set_is_active true self in
  let self := set_record_status st_active self in
  save_is_active self.

(** [StatusMixin.deactivate] *)
Definition deactivate (self : UserWallet) : M UserWallet :=
  let self := set_is_active false self in
  let self := set_record_status st_inactive self in
  save_is_active self.

(** ** The bulk actions of the admin *)

(** [queryset.update(wallet_status=v)] on the selected keys: the rows are
    rewritten in place, no instance is saved and no method is called. *)
Definition update_wallet_status (v : WalletStatus) (selected : list nat)
    (db : DB) : nat * DB :=
  (length (filter (λ pk, is_Some (wallets db !! pk)) (remove_dups selected)),
   mkDB (imap (λ pk w, if bool_decide (pk ∈ selected)
                       then set_wallet_status v w else w) (wallets db))
        (transactions db)).

(** [UserWalletAdmin.freeze_wallets] and [unfreeze_wallets] *)
Definition freeze_wallets (selected : list nat) (db : DB) : nat * DB :=
  update_wallet_status frozen selected db.
Definition unfreeze_wallets (selected : list nat) (db : DB) : nat * DB :=
  update_wallet_status normal selected db.

(** ** The payment password

    The columns [payment_password] and [payment_password_set_at] of a
    wallet, and the two hashing functions of [django.contrib.auth.hashers]
    that the methods call. *)

Record PaymentSecret := mkPaymentSecret {
  payment_password : string;
  payment_password_set_at : option datetime
}.

(** A wallet on which no payment password was ever set: the column is
    blank. *)
Definition no_secret : PaymentSecret := mkPaymentSecret "" None.

Section PaymentPassword.
Variable make_password : string → string.
Variable check_password : string → string → bool.

(** [UserWallet.set_payment_password] *)
Definition set_payment_password (now : datetime) (password : string)
    (self : PaymentSecret) : PaymentSecret :=
  mkPaymentSecret (make_password password) (Some now).

(** [UserWallet.check_payment_password] *)
Definition check_payment_password (self : PaymentSecret)
    (password : string) : bool :=
  if bool_decide (payment_password self = "") then false
  else check_password password (payment_password self).

(** ** The actions of [UserWalletViewSet]

    A request carries the fields of its serializer, the text fields as
    [CharField] reads them; an optional field that is absent is [None].
    The requests carry no [description], which the ledger leaves out as
    well, and name the target user by a key of the user table's type. *)

Record WithdrawData := mkWithdrawData {
  w_amount : Z;
  w_destination : option string;
  w_password : option string
}.

Record TransferData := mkTransferData {
  t_amount : Z;
  t_target_user_id : nat;
  t_password : option string
}.

Inductive Refusal :=
  | wrong_payment_password     (* '支付密码错误' *)
  | currency_mismatch          (* '货币类型不匹配' *)
  | value_error (e : Error).   (* str(e) of a ValueError *)

Inductive Response :=
  | resp_success
  | resp_error (why : Refusal)
  | resp_validation_error
  | resp_not_found
  | resp_internal_error.

(** Python's truth value of an optional string. *)
Definition truthy (p : option string) : bool :=
  match p with
  | Some s => negb (bool_decide (s = ""))
  | None => false
  end.

(** The declared bounds of the field [amount]:
    [DecimalField(max_digits=15, decimal_places=2,
    min_value=Decimal('0.01'))]. *)
Definition amount_field_valid (value : Z) : bool :=
  (1 <=? value) && (value <? 10 ^ 15).

(** A [CharField(max_length=n, required=False)]: absent, or present,
    not blank and of at most [n] characters. *)
Definition char_field_valid (max_length : nat) (value : option string)
  : bool :=
  match value with
  | Some s =>
      negb (bool_decide (s = ""))
      && bool_decide (String.length s ≤ max_length)%nat
  | None => true
  end.

(** [WalletOperationSerializer.validate_amount]; an amount in cents has
    no more than two places, which leaves the upper bound. *)
Definition validate_amount (value : Z) : bool :=
  negb (100000000 <? value).

(** [WithdrawSerializer.validate] *)
Definition withdraw_validate (attrs : WithdrawData) : bool :=
  negb (negb (w_amount attrs =? 0) && (100000 <? w_amount attrs)
        && negb (truthy (w_password attrs))).

Definition withdraw_is_valid (data : WithdrawData) : bool :=
  amount_field_valid (w_amount data)
  && char_field_valid 128 (w_password data)
  && char_field_valid 100 (w_destination data)
  && validate_amount (w_amount data)
  && withdraw_validate data.

(** [TransferSerializer.validate_target_user_id]; [users] are the keys of
    the user table and [request_user] the key of the requesting user. *)
Definition validate_target_user_id (users : list nat) (request_user : nat)
    (value : nat) : bool :=
  bool_decide (value ∈ users) && negb (bool_decide (request_user = value)).

(** [TransferSerializer.validate] *)
Definition transfer_validate (attrs : TransferData) : bool :=
  truthy (t_password attrs).

Definition transfer_is_valid (users : list nat) (request_user : nat)
    (data : TransferData) : bool :=
  amount_field_valid (t_amount data)
  && char_field_valid 128 (t_password data)
  && validate_amount (t_amount data)
  && validate_target_user_id users request_user (t_target_user_id data)
  && transfer_validate data.

(** The exceptions that are a [ValueError]; the others leave the action
    through [transaction.atomic] and [handle_exceptions]. *)
Definition is_value_error (e : Error) : bool :=
  match e with
  | DoesNotExist | DatabaseError | IntegrityError | InvalidOperation => false
  | _ => true
  end.

(** [handle_exceptions] *)
Definition respond_to (e : Error) : Response :=
  match e with
  | DoesNotExist => resp_not_found
  | _ => resp_internal_error
  end.

Definition password_of (p : option string) : string :=
  match p with Some s => s | None => "" end.

(** [validated_data.get('destination', 'manual')] *)
Definition destination_of (data : WithdrawData) : string :=
  match w_destination data with Some s => s | None => "manual" end.

(** [UserWalletViewSet.withdraw], from the object that [get_object]
    returned; [secret] are the password columns of that object. *)
Definition withdraw_view (now : datetime) (secret : PaymentSecret)
    (wallet : UserWallet) (data : WithdrawData) : DB → Response * DB :=
  λ db,
  if withdraw_is_valid data then
    if truthy (w_password data)
       && negb (check_payment_password secret
                  (password_of (w_password data)))
    then (resp_error wrong_payment_password, db)
    else
      match withdraw now wallet (w_amount data) (destination_of data) ""
              db with
      | (Ok _, db') => (resp_success, db')
      | (Raise e, db') =>
          if is_value_error e then (resp_error (value_error e), db')
          else (respond_to e, db)
      end
  else (resp_validation_error, db).

(** [UserWalletViewSet.transfer], likewise. *)
Definition transfer_view (now : datetime) (users : list nat)
    (request_user : nat) (secret : PaymentSecret) (wallet : UserWallet)
    (data : TransferData) : DB → Response * DB :=
  λ db,
  if transfer_is_valid users request_user data then
    if negb (check_payment_password secret
               (password_of (t_password data)))
    then (resp_error wrong_payment_password, db)
    else if negb (bool_decide (t_target_user_id data ∈ users))
    then (resp_not_found, db)
    else
      match get_or_create now (t_target_user_id data) (currency wallet)
              db with
      | (Ok (target_wallet, _), db1) =>
          if bool_decide (currency target_wallet ≠ currency wallet)
          then (resp_error currency_mismatch, db1)
          else
            match transfer_to now wallet target_wallet (t_amount data)
                    "" db1 with
            | (Ok _, db') => (resp_success, db')
            | (Raise e, db') =>
                if is_value_error e then (resp_error (value_error e), db')
                else (respond_to e, db)
            end
      | (Raise e, _) => (respond_to e, db)
      end
  else (resp_validation_error, db).

End PaymentPassword.

(** ** [WalletStatsSerializer] *)

(** [get_daily_remaining] and [get_monthly_remaining] *)
Definition get_daily_remaining (tz : TimeZone) (now : datetime)
    (obj : UserWallet) (db : DB) : Z :=
  daily_limit obj - get_daily_spent tz now obj None db.

Definition get_monthly_remaining (tz : TimeZone) (now : datetime)
    (obj : UserWallet) (db : DB) : Result Z :=
  match get_monthly_spent tz now obj None None db with
  | Ok spent => Ok (monthly_limit obj - spent)
  | Raise e => Raise e
  end.

(** ** [RefundPermission] *)

(** [RefundPermission.has_object_permission]; [obj.wallet] is fetched
    through the foreign key. *)
Definition refund_permission (now : datetime) (request_user : nat)
    (obj : WalletTransaction) : M bool :=
  w ← get_wallet (wallet obj);
  if bool_decide (user w ≠ request_user) then mret false
  else if negb (can_refund now obj) then mret false
  else mret true.

(** ** [UserWalletPermission] *)

(** [UserWalletPermission.has_object_permission]: the owner of the wallet,
    or a member of the staff. *)
Definition has_object_permission (request_user : nat) (is_staff : bool)
    (obj : UserWallet) : bool :=
  bool_decide (user obj = request_user) || is_staff.

(** ** Further sample data *)

(** Two wallets as [get_or_create] opens them. *)
Definition opened : DB :=
  mkDB [new_wallet (day 0) 0 1 CNY; new_wallet (day 0) 1 2 CNY] [].

(** A wallet holding 5000.00 next to [bob]'s. *)
Definition rich : UserWallet := set_balance 500000 alice.
Definition rich_wallets : DB := mkDB [rich; bob] [].

(** A hashing scheme for the samples, and the password columns of a wallet
    whose payment password is 2468. *)
Definition sample_make_password (p : string) : string := "h:" +:+ p.
Definition sample_check_password (p h : string) : bool :=
  bool_decide (h = sample_make_password p).
Definition pin : PaymentSecret :=
  set_payment_password sample_make_password (day 0) "2468" no_secret.

(** * Properties *)

(** ** Shared lemmas and tactics *)

Lemma lookup_lt_length {A} (l : list A) i x :
  l !! i = Some x → bool_decide (i < length l)%nat = true.
Proof. intros H. apply bool_decide_eq_true, (lookup_lt_Some _ _ _ H). Qed.

Lemma lookup_snoc {A} (l : list A) x : (l ++ [x]) !! length l = Some x.
Proof. by apply list_lookup_middle. Qed.

Lemma lookup_snoc2_fst {A} (l : list A) x y :
  ((l ++ [x]) ++ [y]) !! length l = Some x.
Proof. rewrite <- app_assoc. by apply list_lookup_middle. Qed.

Lemma lookup_snoc2_snd {A} (l : list A) x y :
  ((l ++ [x]) ++ [y]) !! S (length l) = Some y.
Proof. apply list_lookup_middle. rewrite length_app. simpl. lia. Qed.

Lemma lookup_snoc_insert {A} (l : list A) i x y :
  (<[i:=y]> l ++ [x]) !! length l = Some x.
Proof. apply list_lookup_middle. by rewrite length_insert. Qed.

(** Unfold one unit of work down to the table operations. *)
Ltac unfold_ops :=
  unfold exec, deposit, withdraw, freeze_amount, unfreeze_amount,
    transfer_to, process_refund, freeze_wallet, unfreeze_wallet,
    create_transaction, objects_create, save, save_status,
    get_wallet, get_transaction, atomic, raise,
    mbind, M_bind, mret, M_ret in *.

(** Projections of records built by the setters. *)
Ltac rec_simpl :=
  cbn [id user currency balance frozen_balance total_income total_expense
       wallet_status is_active daily_limit monthly_limit last_transaction_at
       updated_at record_status
       tx_id wallet transaction_type amount balance_after status
       source destination reference_id created_at tx_updated_at
       wallets transactions
       set_id set_balance set_frozen_balance set_total_income
       set_total_expense set_wallet_status set_last_transaction_at
       set_updated_at set_tx_id set_status set_tx_updated_at set_limits
       fst snd] in *.

(** The digits of the decimal columns, as bounds. *)
Lemma fits_spec (n v : Z) : fits n v = true ↔ - 10 ^ n < v < 10 ^ n.
Proof. unfold fits. rewrite andb_true_iff, !Z.ltb_lt. tauto. Qed.

Lemma fits_false (n v : Z) : fits n v = false ↔ ¬ (- 10 ^ n < v < 10 ^ n).
Proof. rewrite <- fits_spec. by destruct (fits n v). Qed.

Lemma readable_set_id (pk : nat) (w : UserWallet) :
  readable (set_id pk w) = readable w.
Proof. done. Qed.

Ltac fits_tests :=
  unfold readable, tx_readable in *; rec_simpl;
  repeat match goal with
  | H : negb _ = true |- _ => apply negb_true_iff in H
  | H : negb _ = false |- _ => apply negb_false_iff in H
  | H : _ && _ = true |- _ => apply andb_true_iff in H as [? ?]
  | H : fits _ _ = true |- _ => apply fits_spec in H
  | H : fits _ _ = false |- _ => apply fits_false in H
  | H : true = false |- _ => discriminate H
  | H : false = true |- _ => discriminate H
  | H : _ && _ = false |- _ => apply andb_false_iff in H as [H|H]
  end.

(** A goal about the digits of an amount. *)
Ltac fits_goal :=
  unfold readable, tx_readable; rec_simpl;
  rewrite ?andb_true_iff, ?fits_spec; repeat split; lia.

(** Boolean comparisons of the guards, as propositions. *)
Ltac z_tests :=
  repeat match goal with
  | H : (_ <=? _) = true |- _ => apply Z.leb_le in H
  | H : (_ <=? _) = false |- _ => apply Z.leb_gt in H
  | H : (_ <? _) = true |- _ => apply Z.ltb_lt in H
  | H : (_ <? _) = false |- _ => apply Z.ltb_ge in H
  end.

(** The guards of the methods, as propositions. *)
Ltac guards :=
  repeat match goal with
  | H : bool_decide _ = true |- _ => apply bool_decide_eq_true in H
  | H : bool_decide _ = false |- _ => apply bool_decide_eq_false in H
  | H : negb _ = true |- _ => apply negb_true_iff in H
  | H : negb _ = false |- _ => apply negb_false_iff in H
  | H : ¬ (_ ≠ _) |- _ => apply dec_stable in H
  end; z_tests.

(** Split on every test and lookup that an unfolded operation makes. *)
Ltac run_cases :=
  repeat (case_match; simpl in *; simplify_eq; try done); rec_simpl.

(** After a [save] the foreign key of the new ledger row is in range. *)
Ltac fk_in_range :=
  try rewrite !length_insert in *;
  repeat match goal with
  | H : ?l !! ?i = Some _,
    H' : bool_decide (?i < length ?l)%nat = false |- _ =>
      rewrite (lookup_lt_length _ _ _ H) in H'; discriminate
  end.

(** ** C7: the order of the checks of [can_spend] *)

(** C7. [can_spend] reports the first applicable reason in a fixed order:
    a status other than [normal] (AccountStatusError), then an inactive
    wallet (AccountDisabledError), then a balance below the amount
    (InsufficientFundsError); when none applies the wallet can spend. *)
Theorem can_spend_priority (self : UserWallet) (amount : Z) :
  (wallet_status self ≠ normal →
     (can_spend self amount).1 = false ∧
     error_of_reason (can_spend self amount).2 = AccountStatusError) ∧
  (wallet_status self = normal → is_active self = false →
     (can_spend self amount).1 = false ∧
     error_of_reason (can_spend self amount).2 = AccountDisabledError) ∧
  (wallet_status self = normal → is_active self = true →
   balance self < amount →
     (can_spend self amount).1 = false ∧
     error_of_reason (can_spend self amount).2 = InsufficientFundsError) ∧
  (wallet_status self = normal → is_active self = true →
   amount ≤ balance self →
     can_spend self amount = (true, spendable)).
Proof.
  unfold can_spend.
  repeat split; intros; repeat case_bool_decide; try congruence;
    repeat match goal with H : is_active _ = _ |- _ => rewrite H end;
    simpl; try done;
    destruct (Z.ltb_spec (balance self) amount); simpl; try done; lia.
Qed.

(** A frozen, inactive, empty wallet asked for 1.00: the status is
    reported, not the other two reasons. *)
Lemma can_spend_priority_witness :
  can_spend (set_balance 0 (set_wallet_status frozen
               (mkUserWallet 0 1 CNY 0 0 0 0 normal false 0 0 None 0
                  st_active))) 100
  = (false, wallet_status_abnormal frozen)
  ∧ error_of_reason (wallet_status_abnormal frozen) = AccountStatusError.
Proof.
  split; [reflexivity|].
  exact (proj2 (proj1 (can_spend_priority
    (set_balance 0 (set_wallet_status frozen
       (mkUserWallet 0 1 CNY 0 0 0 0 normal false 0 0 None 0
          st_active))) 100)
    ltac:(discriminate))).
Defined.

(** ** C6: a failing call writes nothing *)

(** C6. A unit of work that raises — a withdraw that fails [can_spend], an
    unfreeze beyond the frozen balance, or any other failed precondition —
    leaves the database exactly as it found it: every wallet row (balance,
    frozen balance, lifetime income and expense) and the ledger, hence the
    number of its entries, are unchanged. *)
Theorem failure_writes_nothing (now : datetime) (op : Op) (db : DB)
    (e : Error) :
  (exec now op db).1 = Raise e → (exec now op db).2 = db.
Proof.
  destruct op; unfold_ops; simpl; run_cases; fk_in_range;
    intros; simplify_eq.
  all: fits_tests; lia.
Qed.

(** Withdrawing 150.00 from a wallet that holds 100.00. *)
Lemma failure_writes_nothing_witness :
  (exec (day 1) (op_withdraw 0 15000 "manual" "") two_wallets).1
    = Raise InsufficientFundsError
  ∧ (exec (day 1) (op_withdraw 0 15000 "manual" "") two_wallets).2
    = two_wallets.
Proof.
  split; [reflexivity|].
  apply (failure_writes_nothing _ _ _ InsufficientFundsError). reflexivity.
Defined.

(** ** C1: balances never go negative *)

Lemma exec_preserves_nonneg now op db :
  balances_nonneg db → amounts_nonneg db →
  balances_nonneg (exec now op db).2 ∧ amounts_nonneg (exec now op db).2.
Proof.
  unfold balances_nonneg, amounts_nonneg. intros Hb Ha.
  destruct op; unfold_ops; unfold can_spend in *; simpl; run_cases; z_tests.
  all: repeat match goal with
       | H : wallets _ !! _ = Some _ |- _ =>
           pose proof (Forall_lookup_1 _ _ _ _ Hb H) as [? ?]; revert H
       | H : transactions _ !! _ = Some _ |- _ =>
           pose proof (Forall_lookup_1 _ _ _ _ Ha H); revert H
       end; intros.
  all: split.
  all: repeat match goal with
       | |- Forall _ (<[_:=_]> _) => apply Forall_insert
       | |- Forall _ (_ ++ [_]) =>
           apply Forall_app_2; [|apply Forall_singleton]
       end; try done.
  all: unfold wallet_ok in *; rec_simpl; try lia.
  (* the receiving row of a transfer, read again when it is saved *)
  split; [lia|].
  match goal with
  | H : <[?i:=_]> _ !! ?j = Some _ |- _ =>
      destruct (decide (i = j)) as [->|Hne];
        [ rewrite list_lookup_insert_eq in H
            by (eapply lookup_lt_Some; eassumption)
        | rewrite list_lookup_insert_ne in H by done ]
  end; simplify_eq; rec_simpl; lia.
Qed.

(** C1 (amended). Starting from a database in which every wallet has
    [balance ≥ 0] and [frozen_balance ≥ 0] and in which every entry of the
    ledger has [amount ≥ 0], the declared minimum of the column, every
    state reached by a sequence of operations (deposit, withdraw,
    freeze_amount, unfreeze_amount, transfer_to, process_refund, and the
    two status changes) has all balances and frozen balances
    non-negative, and every entry of its ledger has [amount ≥ 0] again. *)
Theorem balances_never_negative (ops : list (datetime * Op)) (db : DB) :
  balances_nonneg db → amounts_nonneg db →
  Forall (λ s, balances_nonneg s ∧ amounts_nonneg s) (states ops db).
Proof.
  revert db. induction ops as [|[now op] ops IH]; intros db Hb Ha; simpl.
  - by repeat constructor.
  - constructor; [done|].
    destruct (exec_preserves_nonneg now op db Hb Ha) as [Hb' Ha'].
    apply (IH _ Hb' Ha').
Qed.

(** A deposit, a transfer, a freeze, an unfreeze that is refused, a
    withdrawal and the refund of an earlier payment. *)
Lemma balances_never_negative_witness :
  Forall (λ s, balances_nonneg s ∧ amounts_nonneg s)
    (states [(day 1, op_deposit 0 10000 "manual" "");
             (day 1, op_transfer_to 0 1 3000 "");
             (day 2, op_freeze_amount 0 3000);
             (day 2, op_unfreeze_amount 0 4000);
             (day 3, op_withdraw 1 8000 "manual" "");
             (day 4, op_process_refund 0)]
            (mkDB [alice; bob] [payment_entry (day 0) 5000])).
Proof.
  apply balances_never_negative.
  - repeat constructor; simpl; lia.
  - repeat constructor; simpl; lia.
Defined.

(** C1 as stated fails: from a state in which every balance and frozen
    balance is zero, the refund of a payment row whose amount is -5.00,
    below the declared minimum of the column, which [save] and [create]
    do not check, commits and leaves the balance at -5.00. *)
Lemma ledger_premise_needed :
  balances_nonneg negative_payment
  ∧ (exec (day 1) (op_process_refund 0) negative_payment).1 = Ok ()
  ∧ ¬ Forall balances_nonneg
        (states [(day 1, op_process_refund 0)] negative_payment).
Proof.
  split; [repeat constructor; simpl; lia|].
  split; [reflexivity|].
  intros H. apply Forall_cons in H as [_ H].
  apply Forall_cons in H as [H _].
  apply Forall_cons in H as [[H _] _].
  vm_compute in H. by apply H.
Qed.

(** ** C2: a transfer conserves money *)

(** C2 (amended). A transfer between two distinct wallets, both with
    amounts that their columns hold.  An amount [a ≤ 0] raises
    InvalidAmountError, before the currencies and [can_spend] are looked
    at, and a positive amount between wallets of two currencies raises
    CurrencyMismatchError; neither writes anything.  For a positive
    amount, equal currencies and a sender for whom [can_spend] passes: if
    the sender's lifetime expense plus [a], the receiver's balance plus
    [a] and the receiver's lifetime income plus [a] fit the 15 digits of
    their columns, the transfer commits, the sender's balance decreases by
    exactly [a], the receiver's increases by exactly [a], frozen balances
    are untouched so the total holdings of the pair are unchanged, and
    the ledger grows by one [transfer_out] entry on the sender followed by
    one [transfer_in] entry on the receiver, each carrying the resulting
    balance; if one of the three does not fit, the transfer raises
    [decimal.InvalidOperation] and the database is unchanged. *)
Theorem transfer_conservation (now : datetime) (pk target_pk : nat)
    (a : Z) (ref : string) (db : DB) (s r : UserWallet) :
  wallets db !! pk = Some s → wallets db !! target_pk = Some r →
  readable s = true → readable r = true → pk ≠ target_pk →
  let res := exec now (op_transfer_to pk target_pk a ref) db in
  (a ≤ 0 → res = (Raise InvalidAmountError, db))
  ∧ (0 < a → currency r ≠ currency s →
     res = (Raise CurrencyMismatchError, db))
  ∧ (0 < a → currency r = currency s → (can_spend s a).1 = true →
     (fits 15 (total_expense s + a) && fits 15 (balance r + a)
      && fits 15 (total_income r + a) = false →
      res = (Raise InvalidOperation, db))
     ∧ (fits 15 (total_expense s + a) && fits 15 (balance r + a)
        && fits 15 (total_income r + a) = true →
        res.1 = Ok () ∧
        ∃ s' r' t_out t_in,
          wallets res.2 !! pk = Some s'
          ∧ wallets res.2 !! target_pk = Some r'
          ∧ balance s' = balance s - a ∧ balance r' = balance r + a
          ∧ frozen_balance s' = frozen_balance s
          ∧ frozen_balance r' = frozen_balance r
          ∧ total_balance s' + total_balance r'
            = total_balance s + total_balance r
          ∧ transactions res.2 = transactions db ++ [t_out; t_in]
          ∧ wallet t_out = pk ∧ transaction_type t_out = t_transfer_out
          ∧ amount t_out = a ∧ balance_after t_out = balance s'
          ∧ wallet t_in = target_pk ∧ transaction_type t_in = t_transfer_in
          ∧ amount t_in = a ∧ balance_after t_in = balance r')).
Proof.
  intros Hs Hr Hrs Hrr Hne res. subst res. unfold total_balance.
  pose proof (lookup_lt_Some _ _ _ Hs). pose proof (lookup_lt_Some _ _ _ Hr).
  unfold_ops; unfold can_spend in *. rewrite Hs. simpl. rewrite Hrs. simpl.
  rewrite Hr. simpl. rewrite Hrr. simpl. rec_simpl.
  split; [|split].
  - intros Ha. by destruct (Z.leb_spec a 0) as [_|?]; [|lia].
  - intros Ha Hc. destruct (Z.leb_spec a 0) as [?|_]; [lia|].
    by rewrite (bool_decide_eq_true_2 (currency r ≠ currency s)).
  - intros Ha Hc. destruct (Z.leb_spec a 0) as [?|_]; [lia|].
    rewrite (bool_decide_eq_false_2 (currency r ≠ currency s))
      by (rewrite Hc; tauto).
    intros Hsp. split; intros Hfit.
    + run_cases.
      all: rewrite ?list_lookup_insert_ne in * by done.
      all: simplify_eq; fk_in_range.
      all: fits_tests; lia.
    + run_cases.
      all: rewrite ?list_lookup_insert_ne in * by done.
      all: simplify_eq; fk_in_range.
      all: try (fits_tests; lia).
      split; [done|].
      do 4 eexists.
      rewrite !list_lookup_insert_eq by (rewrite ?length_insert; done).
      rewrite <- app_assoc. simpl.
      repeat split; rec_simpl; try reflexivity; lia.
Qed.

(** Sender at 100.00, receiver at 50.00, transfer of 30.00: 70.00 and
    80.00 afterwards; towards a wallet in another currency the transfer is
    refused. *)
Lemma transfer_conservation_witness :
  (balance <$> wallets (exec (day 1) (op_transfer_to 0 1 3000 "")
                          two_wallets).2 = [7000; 8000]
   ∧ (exec (day 1) (op_transfer_to 0 1 3000 "") two_wallets).1 = Ok ())
  ∧ exec (day 1) (op_transfer_to 0 1 3000 "") mixed_wallets
    = (Raise CurrencyMismatchError, mixed_wallets).
Proof.
  split.
  - split; [reflexivity|].
    exact (proj1 (proj2 (proj2 (proj2 (transfer_conservation (day 1) 0 1
      3000 "" two_wallets alice bob eq_refl eq_refl eq_refl eq_refl
      ltac:(discriminate))) ltac:(reflexivity) eq_refl eq_refl)
      eq_refl)).
  - exact (proj1 (proj2 (transfer_conservation (day 1) 0 1 3000 ""
      mixed_wallets alice carol eq_refl eq_refl eq_refl eq_refl
      ltac:(discriminate))) ltac:(reflexivity) ltac:(discriminate)).
Defined.

(** C2 as stated fails at the amount 0: [can_spend] passes and the
    currencies agree, yet the transfer raises and appends nothing; and
    with differing currencies the error for amount 0 is the one about the
    amount, not the one about the currency.  It fails as well for 30.00
    sent to a wallet whose balance is the largest that its column holds:
    [can_spend] passes, the currencies agree, and the transfer raises and
    moves nothing. *)
Lemma transfer_zero_counterexample :
  ((can_spend alice 0).1 = true ∧ currency bob = currency alice
   ∧ exec (day 1) (op_transfer_to 0 1 0 "") two_wallets
     = (Raise InvalidAmountError, two_wallets))
  ∧ (currency carol ≠ currency alice
     ∧ exec (day 1) (op_transfer_to 0 1 0 "") mixed_wallets
       ≠ (Raise CurrencyMismatchError, mixed_wallets))
  ∧ ((can_spend alice 3000).1 = true
     ∧ exec (day 1) (op_transfer_to 0 1 3000 "") brimful_receiver
       = (Raise InvalidOperation, brimful_receiver)).
Proof. repeat split; try reflexivity; discriminate. Qed.

(** ** C3: what a closed wallet accepts *)

(** C3 (amended). On a wallet whose status is not [normal] — [closed]
    exactly as [frozen] and [suspended]; there is no error of its own for
    a closed wallet — withdraw and transfer_to (as sender) raise and leave
    the database unchanged, and the error is AccountStatusError whenever
    the amount is positive (and, for a transfer, the receiver exists, can
    be read and has the same currency).  A deposit of a positive amount
    is accepted on a wallet in every status, normal, frozen, suspended and
    closed alike: when the amount, the balance plus the amount and the
    lifetime income plus the amount fit the 15 digits of their columns it
    credits the balance and the lifetime income and appends one deposit
    entry, and when one of them does not fit it raises
    [decimal.InvalidOperation] and writes nothing. *)
Theorem closed_wallet_operations (now : datetime) (pk : nat) (db : DB)
    (w : UserWallet) :
  wallets db !! pk = Some w → readable w = true →
  (wallet_status w ≠ normal →
     (∀ a dest ref, ∃ e,
        exec now (op_withdraw pk a dest ref) db = (Raise e, db)
        ∧ (0 < a → e = AccountStatusError))
     ∧ (∀ target_pk a ref, ∃ e,
        exec now (op_transfer_to pk target_pk a ref) db = (Raise e, db)
        ∧ (0 < a → ∀ r,
           wallets db !! target_pk = Some r → readable r = true →
           currency r = currency w → e = AccountStatusError)))
  ∧ (∀ a src ref, 0 < a →
       (fits 15 a && fits 15 (balance w + a)
        && fits 15 (total_income w + a) = false →
        exec now (op_deposit pk a src ref) db = (Raise InvalidOperation, db))
       ∧ (fits 15 a && fits 15 (balance w + a)
          && fits 15 (total_income w + a) = true →
          ∃ w' t,
            exec now (op_deposit pk a src ref) db
            = (Ok (),
               mkDB (<[pk:=w']> (wallets db)) (transactions db ++ [t]))
            ∧ balance w' = balance w + a
            ∧ total_income w' = total_income w + a
            ∧ frozen_balance w' = frozen_balance w
            ∧ wallet_status w' = wallet_status w
            ∧ wallet t = pk ∧ transaction_type t = t_deposit
            ∧ amount t = a ∧ balance_after t = balance w + a)).
Proof.
  intros Hw Hrw. pose proof (lookup_lt_length _ _ _ Hw) as Hlt.
  split; [intros Hc; split|].
  - intros a dest ref. unfold_ops; unfold can_spend. rewrite Hw. simpl.
    rewrite Hrw. simpl. rec_simpl.
    rewrite (bool_decide_eq_true_2 (wallet_status w ≠ normal)) by done.
    simpl.
    destruct (Z.leb_spec a 0); eexists; (split; [reflexivity|]);
      [lia|done].
  - intros target_pk a ref. unfold_ops; unfold can_spend. rewrite Hw. simpl.
    rewrite Hrw. simpl.
    destruct (wallets db !! target_pk) as [r|] eqn:Hr; simpl;
      [|eexists; split; [reflexivity|]; intros _ ? ?; simplify_eq].
    destruct (readable r) eqn:Hrr; simpl;
      [|eexists; split; [reflexivity|]; intros _ ? ? ?; simplify_eq;
        congruence].
    rec_simpl.
    rewrite (bool_decide_eq_true_2 (wallet_status w ≠ normal)) by done.
    simpl.
    destruct (Z.leb_spec a 0);
      [eexists; split; [reflexivity|lia]|].
    destruct (bool_decide (currency r ≠ currency w)) eqn:Hcur;
      (eexists; split; [reflexivity|]); intros _ ? ? ? ?; simplify_eq;
      [|done].
    apply bool_decide_eq_true in Hcur. congruence.
  - intros a src ref Ha. unfold_ops. rewrite Hw. simpl. rewrite Hrw. simpl.
    destruct (Z.leb_spec a 0); [lia|]. rec_simpl.
    split; intros Hfit.
    + run_cases; fk_in_range; fits_tests; lia.
    + run_cases; fk_in_range; try (fits_tests; lia).
      do 2 eexists. split; [reflexivity|].
      repeat split.
Qed.

(** A closed wallet holding 100.00: a withdrawal of 10.00 is refused
    for its status. *)
Lemma closed_wallet_operations_witness :
  exec (day 1) (op_withdraw 0 1000 "manual" "") closed_wallet
  = (Raise AccountStatusError, closed_wallet).
Proof.
  destruct (proj1 (proj1 (closed_wallet_operations (day 1) 0 closed_wallet
    (set_wallet_status closed alice) eq_refl eq_refl) ltac:(discriminate))
    1000 "manual" "") as [e [He Hs]].
  rewrite He, (Hs ltac:(reflexivity)). reflexivity.
Defined.

(** C3 as stated fails: a deposit of 100.00 on a closed wallet is not
    refused; it commits, the balance becomes 200.00 and a ledger entry is
    written.  And a deposit of 50.00 on a wallet of normal status whose
    balance is the largest that its column holds does not succeed. *)
Lemma closed_deposit_counterexample :
  (wallet_status <$> wallets closed_wallet !! 0%nat = Some closed
   ∧ (exec (day 1) (op_deposit 0 10000 "manual" "") closed_wallet).1 = Ok ()
   ∧ balance <$> wallets (exec (day 1) (op_deposit 0 10000 "manual" "")
                            closed_wallet).2 !! 0%nat = Some 20000
   ∧ length (transactions (exec (day 1) (op_deposit 0 10000 "manual" "")
                             closed_wallet).2) = 1%nat)
  ∧ (wallet_status <$> wallets brimful !! 0%nat = Some normal
     ∧ exec (day 1) (op_deposit 0 5000 "manual" "") brimful
       = (Raise InvalidOperation, brimful)).
Proof. repeat split. Qed.

(** ** C4: every change of a balance is recorded *)

(** Every committed operation appends exactly one ledger entry, and a
    transfer between two rows exactly two, one per wallet; the
    [balance_after] of each new entry is the balance of its wallet in the
    resulting database.  The entries written by [freeze_wallet] and
    [unfreeze_wallet] have amount 0, and their [balance_after] is the
    balance of the wallet, which the operation leaves as it was.  Nothing
    is said here of a transfer whose receiver is the sender's own row. *)
Lemma ledger_entry_per_change (now : datetime) (op : Op) (db : DB) :
  (exec now op db).1 = Ok () →
  let db' := (exec now op db).2 in
  let n := length (transactions db) in
  match op with
  | op_transfer_to pk target_pk _ _ =>
      pk ≠ target_pk →
      length (transactions db') = S (S n) ∧
      ∃ t_out t_in s' r',
        transactions db' !! n = Some t_out ∧
        transactions db' !! S n = Some t_in ∧
        wallet t_out = pk ∧ transaction_type t_out = t_transfer_out ∧
        wallet t_in = target_pk ∧ transaction_type t_in = t_transfer_in ∧
        wallets db' !! pk = Some s' ∧ wallets db' !! target_pk = Some r' ∧
        balance_after t_out = balance s' ∧ balance_after t_in = balance r'
  | op_freeze_wallet pk | op_unfreeze_wallet pk =>
      length (transactions db') = S n ∧
      ∃ t w w',
        transactions db' !! n = Some t ∧ wallet t = pk ∧ amount t = 0 ∧
        (transaction_type t = t_freeze_wallet
         ∨ transaction_type t = t_unfreeze_wallet) ∧
        wallets db !! pk = Some w ∧ wallets db' !! pk = Some w' ∧
        balance w' = balance w ∧ frozen_balance w' = frozen_balance w ∧
        balance_after t = balance w
  | _ =>
      length (transactions db') = S n ∧
      ∃ t w',
        transactions db' !! n = Some t ∧
        wallets db' !! wallet t = Some w' ∧
        balance_after t = balance w'
  end.
Proof.
  destruct op; unfold_ops; simpl; run_cases; fk_in_range;
    intros; simplify_eq.
  all: rewrite ?list_lookup_insert_ne in * by done; simplify_eq.
  all: repeat match goal with
       | H : wallets _ !! _ = Some _ |- _ =>
           pose proof (lookup_lt_Some _ _ _ H); revert H
       | H : transactions _ !! _ = Some _ |- _ =>
           pose proof (lookup_lt_Some _ _ _ H); revert H
       end; intros.
  all: (split; [rewrite ?length_app, ?length_insert; simpl; lia|]).
  all: repeat match goal with |- ∃ _, _ => eexists end.
  all: repeat match goal with |- _ ∧ _ => split end.
  all: rec_simpl.
  all: try apply lookup_snoc.
  all: try apply lookup_snoc2_fst.
  all: try apply lookup_snoc2_snd.
  all: try apply lookup_snoc_insert.
  all: rec_simpl.
  all: try (rewrite ?list_lookup_insert_ne by done;
            apply list_lookup_insert_eq; rewrite ?length_insert; done).
  all: try eassumption.
  all: try reflexivity; try tauto.
Qed.

(** The transfer of 30.00 from 100.00 to 50.00 writes two entries, with
    [balance_after] 70.00 and 80.00. *)
Lemma ledger_entry_per_change_example :
  (balance_after <$> transactions
     (exec (day 1) (op_transfer_to 0 1 3000 "") two_wallets).2
   = [7000; 8000])
  ∧ length (transactions
      (exec (day 1) (op_transfer_to 0 1 3000 "") two_wallets).2) = 2%nat.
Proof.
  split; [reflexivity|].
  exact (proj1 (ledger_entry_per_change (day 1)
    (op_transfer_to 0 1 3000 "") two_wallets eq_refl ltac:(discriminate))).
Qed.

(** C4. The claim fails on a transfer whose receiver is the row of the
    sender, which [transfer_to] does not refuse although the serializer
    of the transfer action and the tests of the repository want a
    transfer to oneself refused.  Sender and receiver are two instances
    of one row: 30.00 sent from the wallet that holds 100.00 commits, the
    credit is computed from the balance read before the debit and
    overwrites it, and the wallet ends with 130.00.  Both new entries are
    on the one wallet, and the [balance_after] of the [transfer_out]
    entry is 70.00, not the balance of 130.00 that its wallet has after
    the operation. *)
Theorem transfer_to_same_row :
  let res := exec (day 1) (op_transfer_to 0 0 3000 "") two_wallets in
  res.1 = Ok ()
  ∧ balance <$> wallets res.2 = [13000; 5000]
  ∧ wallet <$> transactions res.2 = [0; 0]%nat
  ∧ transaction_type <$> transactions res.2 = [t_transfer_out; t_transfer_in]
  ∧ amount <$> transactions res.2 = [3000; 3000]
  ∧ balance_after <$> transactions res.2 = [7000; 13000].
Proof. by repeat split. Qed.

(** ** C5: refunds *)

Lemma can_refund_spec now t :
  can_refund now t = true ↔
  transaction_type t = t_payment ∧ status t = completed
  ∧ now - created_at t ≤ timedelta_days 30.
Proof.
  unfold can_refund. rewrite !andb_true_iff, !bool_decide_eq_true, Z.leb_le.
  rewrite list_elem_of_singleton. intuition lia.
Qed.

Lemma process_refund_refused now tx db t :
  transactions db !! tx = Some t → tx_readable t = true →
  can_refund now t = false →
  exec now (op_process_refund tx) db = (Raise RefundIneligibleError, db).
Proof.
  intros Ht Hr Hc. unfold_ops. rewrite Ht. simpl. rewrite Hr. simpl.
  replace (can_refund now (set_tx_id tx t)) with (can_refund now t)
    by reflexivity.
  by rewrite Hc.
Qed.

(** C5 (amended). For a ledger entry of an existing wallet, both with
    amounts that their columns hold, the refund commits exactly when the
    entry is a payment, its status is completed, it was created at most
    30 days before, and the balance and the lifetime income of the wallet,
    each credited with the amount of the entry, fit the 15 digits of their
    columns.  An entry that is not eligible raises RefundIneligibleError,
    an eligible one whose credit does not fit raises
    [decimal.InvalidOperation], and neither writes anything.  A refund
    that commits credits the balance and the lifetime income of the wallet
    by the amount of the entry, sets the status of the entry to refunded,
    and appends one refund entry of the same amount whose [reference_id]
    is the key of the original entry; any later refund of the same entry
    raises RefundIneligibleError and changes nothing. *)
Theorem refund_guard (now : datetime) (tx : nat) (db : DB)
    (t : WalletTransaction) (w : UserWallet) :
  transactions db !! tx = Some t → wallets db !! wallet t = Some w →
  tx_readable t = true → readable w = true →
  let res := exec now (op_process_refund tx) db in
  (res.1 = Ok () ↔
     (transaction_type t = t_payment ∧ status t = completed
      ∧ now - created_at t ≤ timedelta_days 30)
     ∧ fits 15 (balance w + amount t)
       && fits 15 (total_income w + amount t) = true)
  ∧ (res.1 = Ok () →
     ∃ w' t' rf,
       res.2 = mkDB (<[wallet t:=w']> (wallets db))
                    (<[tx:=t']> (transactions db) ++ [rf])
       ∧ balance w' = balance w + amount t
       ∧ total_income w' = total_income w + amount t
       ∧ frozen_balance w' = frozen_balance w
       ∧ total_expense w' = total_expense w
       ∧ status t' = refunded ∧ transaction_type t' = t_payment
       ∧ amount t' = amount t ∧ wallet t' = wallet t
       ∧ transaction_type rf = t_refund ∧ amount rf = amount t
       ∧ wallet rf = wallet t ∧ reference_id rf = pretty tx
       ∧ balance_after rf = balance w'
       ∧ ∀ later,
           exec later (op_process_refund tx) res.2
           = (Raise RefundIneligibleError, res.2))
  ∧ (¬ (transaction_type t = t_payment ∧ status t = completed
        ∧ now - created_at t ≤ timedelta_days 30) →
     res = (Raise RefundIneligibleError, db))
  ∧ (transaction_type t = t_payment ∧ status t = completed
     ∧ now - created_at t ≤ timedelta_days 30 →
     fits 15 (balance w + amount t)
     && fits 15 (total_income w + amount t) = false →
     res = (Raise InvalidOperation, db)).
Proof.
  intros Ht Hw Hrt Hrw res.
  pose proof (lookup_lt_Some _ _ _ Ht) as Hlt.
  pose proof (lookup_lt_length _ _ _ Hw) as Hlw.
  rewrite <- can_refund_spec.
  destruct (can_refund now t) eqn:Hc.
  - destruct (fits 15 (balance w + amount t)
              && fits 15 (total_income w + amount t)) eqn:Hfit.
    + assert (Hres : ∃ w' t' rf,
        res = (Ok (), mkDB (<[wallet t:=w']> (wallets db))
                        (<[tx:=t']> (transactions db) ++ [rf]))
         ∧ balance w' = balance w + amount t
         ∧ total_income w' = total_income w + amount t
         ∧ frozen_balance w' = frozen_balance w
         ∧ total_expense w' = total_expense w
         ∧ status t' = refunded ∧ transaction_type t' = t_payment
         ∧ amount t' = amount t ∧ wallet t' = wallet t
         ∧ balance_after t' = balance_after t
         ∧ transaction_type rf = t_refund ∧ amount rf = amount t
         ∧ wallet rf = wallet t ∧ reference_id rf = pretty tx
         ∧ balance_after rf = balance w').
      { subst res. unfold_ops. rewrite Ht. simpl. rewrite Hrt. simpl.
        replace (can_refund now (set_tx_id tx t)) with (can_refund now t)
          by reflexivity.
        rewrite Hc. simpl. rec_simpl. rewrite Hw. simpl. rewrite Hrw. simpl.
        rec_simpl. rewrite andb_true_r, Hfit. simpl.
        rewrite Hw. simpl. rec_simpl. rewrite Ht. simpl. rec_simpl.
        rewrite length_insert, Hlw.
        assert (Hfa : fits 15 (amount t) && fits 15 (balance w + amount t)
                      = true) by (fits_tests; fits_goal).
        rewrite Hfa. simpl.
        do 3 eexists. split; [reflexivity|].
        apply can_refund_spec in Hc as (? & ? & ?).
        repeat split; rec_simpl; done. }
      destruct Hres as (w' & t' & rf & Hres & Hrest).
      rewrite Hres. simpl. split; [done|]. split; [|split; [tauto|done]].
      intros _. exists w', t', rf. split; [done|].
      repeat (split; [tauto|]).
      intros later. apply (process_refund_refused later tx _ t').
      * simpl. rewrite lookup_app_l by (by rewrite length_insert).
        by apply list_lookup_insert_eq.
      * unfold tx_readable in *.
        replace (amount t') with (amount t) by (symmetry; tauto).
        replace (balance_after t') with (balance_after t)
          by (symmetry; tauto).
        done.
      * unfold can_refund.
        replace (status t') with refunded by (symmetry; tauto).
        rewrite (bool_decide_eq_false_2 (refunded = completed)) by done.
        by rewrite andb_false_r.
    + assert (Hres : res = (Raise InvalidOperation, db)).
      { subst res. unfold_ops. rewrite Ht. simpl. rewrite Hrt. simpl.
        replace (can_refund now (set_tx_id tx t)) with (can_refund now t)
          by reflexivity.
        rewrite Hc. simpl. rec_simpl. rewrite Hw. simpl. rewrite Hrw. simpl.
        rec_simpl. rewrite andb_true_r, Hfit. done. }
      rewrite Hres. simpl. split; [split; [done|]|].
      { intros [_ ?]. done. }
      split; [done|]. split; [tauto|done].
  - subst res. rewrite (process_refund_refused _ _ _ _ Ht Hrt Hc). simpl.
    split; [split; [done|]|].
    { intros [? _]. done. }
    split; [done|]. split; [done|]. intros ?. done.
Qed.

(** A payment of 50.00 refunded after ten days commits; the same payment
    asked back after 31 days is refused. *)
Lemma refund_guard_witness :
  (exec (day 10) (op_process_refund 0) paid).1 = Ok ()
  ∧ exec (day 31) (op_process_refund 0) paid
    = (Raise RefundIneligibleError, paid).
Proof.
  split.
  - apply (proj1 (refund_guard (day 10) 0 paid (payment_entry (day 0) 5000)
      alice eq_refl eq_refl eq_refl eq_refl)).
    repeat split. by vm_compute.
  - apply (proj1 (proj2 (proj2 (refund_guard (day 31) 0 paid
      (payment_entry (day 0) 5000) alice eq_refl eq_refl eq_refl
      eq_refl)))).
    intros (_ & _ & H). by vm_compute in H.
Defined.

(** C5 as stated fails: a completed payment of 50.00, ten days old, on a
    wallet whose balance is the largest that the column holds is eligible,
    and its refund does not succeed. *)
Lemma refund_overflow_counterexample :
  (transaction_type (payment_entry (day 0) 5000) = t_payment
   ∧ status (payment_entry (day 0) 5000) = completed
   ∧ day 10 - created_at (payment_entry (day 0) 5000) ≤ timedelta_days 30)
  ∧ transactions brimful !! 0%nat = Some (payment_entry (day 0) 5000)
  ∧ exec (day 10) (op_process_refund 0) brimful
    = (Raise InvalidOperation, brimful).
Proof. repeat split. by vm_compute. Qed.

(** ** C10: freezing and unfreezing the same amount *)

(** C10 (amended). For a wallet with amounts that its columns hold, a
    frozen balance that is not negative, and an amount [a] with
    [0 < a ≤ balance] for which the frozen balance plus [a] fits the 15
    digits of its column, [freeze_amount a] commits and leaves the total
    holdings [balance + frozen_balance] unchanged; [unfreeze_amount a]
    run right after it commits too and restores both the balance and the
    frozen balance to their values before the freeze; neither operation
    touches the lifetime income or the lifetime expense. *)
Theorem freeze_unfreeze_roundtrip (now later : datetime) (pk : nat) (a : Z)
    (db : DB) (w : UserWallet) :
  wallets db !! pk = Some w → readable w = true →
  0 ≤ frozen_balance w → fits 15 (frozen_balance w + a) = true →
  0 < a → a ≤ balance w →
  let res1 := exec now (op_freeze_amount pk a) db in
  let res2 := exec later (op_unfreeze_amount pk a) res1.2 in
  res1.1 = Ok () ∧ res2.1 = Ok ()
  ∧ ∃ w1 w2,
      wallets res1.2 !! pk = Some w1 ∧ wallets res2.2 !! pk = Some w2
      ∧ balance w1 = balance w - a
      ∧ frozen_balance w1 = frozen_balance w + a
      ∧ total_balance w1 = total_balance w
      ∧ balance w2 = balance w
      ∧ frozen_balance w2 = frozen_balance w
      ∧ total_income w1 = total_income w ∧ total_income w2 = total_income w
      ∧ total_expense w1 = total_expense w
      ∧ total_expense w2 = total_expense w.
Proof.
  intros Hw Hrw Hf Hfit Ha Hb res1 res2.
  pose proof (lookup_lt_Some _ _ _ Hw) as Hlt.
  pose proof (lookup_lt_length _ _ _ Hw) as Hlw.
  assert (H1 : ∃ w1 l, res1 = (Ok (), mkDB (<[pk:=w1]> (wallets db)) l)
     ∧ balance w1 = balance w - a
     ∧ frozen_balance w1 = frozen_balance w + a
     ∧ total_income w1 = total_income w
     ∧ total_expense w1 = total_expense w
     ∧ daily_limit w1 = daily_limit w
     ∧ monthly_limit w1 = monthly_limit w).
  { subst res1. unfold_ops. rewrite Hw. simpl. rewrite Hrw. simpl. rec_simpl.
    destruct (Z.leb_spec a 0); [lia|].
    destruct (Z.ltb_spec (balance w) a); [lia|].
    simpl. rec_simpl.
    run_cases; fk_in_range; try (fits_tests; lia).
    do 2 eexists. split; [reflexivity|]. by rec_simpl. }
  destruct H1 as (w1 & l & H1 & Hb1 & Hf1 & Hi1 & He1 & Hd1 & Hm1).
  assert (Hw1 : wallets res1.2 !! pk = Some w1).
  { rewrite H1. simpl. by apply list_lookup_insert_eq. }
  assert (Hrw1 : readable w1 = true).
  { fits_tests. unfold readable. rewrite Hb1, Hf1, Hi1, He1, Hd1, Hm1.
    rewrite !andb_true_iff, !fits_spec. repeat split; lia. }
  assert (H2 : ∃ w2, res2.1 = Ok () ∧ wallets res2.2 !! pk = Some w2
     ∧ balance w2 = balance w1 + a
     ∧ frozen_balance w2 = frozen_balance w1 - a
     ∧ total_income w2 = total_income w1
     ∧ total_expense w2 = total_expense w1).
  { pose proof (lookup_lt_Some _ _ _ Hw1) as Hlt1.
    pose proof (lookup_lt_length _ _ _ Hw1) as Hlw1.
    subst res2. revert Hw1 Hlt1 Hlw1. generalize (res1.2).
    intros db1 Hw1 Hlt1 Hlw1.
    unfold_ops. rewrite Hw1. simpl. rewrite Hrw1. simpl. rec_simpl.
    destruct (Z.leb_spec a 0); [lia|].
    destruct (Z.ltb_spec (frozen_balance w1) a); [lia|].
    simpl. rec_simpl.
    run_cases; fk_in_range; try (fits_tests; lia).
    eexists. split; [reflexivity|].
    rewrite list_lookup_insert_eq by done.
    split; [reflexivity|]. by rec_simpl. }
  destruct H2 as (w2 & H2 & Hw2 & Hb2 & Hf2 & Hi2 & He2).
  split; [by rewrite H1|]. split; [done|].
  exists w1, w2. unfold total_balance.
  repeat split; try done; lia.
Qed.

(** 100.00 available: freeze 30.00, then unfreeze 30.00. *)
Lemma freeze_unfreeze_roundtrip_witness :
  (exec (day 1) (op_freeze_amount 0 3000) two_wallets).1 = Ok ()
  ∧ wallets (exec (day 2) (op_unfreeze_amount 0 3000)
        (exec (day 1) (op_freeze_amount 0 3000) two_wallets).2).2
      !! 0%nat
    = Some (set_updated_at (day 2) alice).
Proof.
  split; [|reflexivity].
  exact (proj1 (freeze_unfreeze_roundtrip (day 1) (day 2) 0 3000
    two_wallets alice eq_refl eq_refl ltac:(done) eq_refl ltac:(done)
    ltac:(done))).
Defined.

(** C10 as stated fails on a wallet whose frozen balance is negative:
    with 100.00 available and -5.00 frozen, freezing 3.00 commits, the
    unfreeze of 3.00 right after it is refused, for the frozen balance of
    -2.00 is below the amount, and the balance stays at 97.00.  It fails
    as well on a wallet whose frozen balance is the largest that its
    column holds: freezing 3.00 raises, the unfreeze of 3.00 after it
    commits, and the balance ends at 103.00. *)
Lemma negative_hold_counterexample :
  ((0 < 300 ∧ 300 ≤ balance (set_frozen_balance (-500) alice))
   ∧ wallets overdrawn_hold !! 0%nat
     = Some (set_frozen_balance (-500) alice)
   ∧ (exec (day 1) (op_freeze_amount 0 300) overdrawn_hold).1 = Ok ()
   ∧ exec (day 2) (op_unfreeze_amount 0 300)
       (exec (day 1) (op_freeze_amount 0 300) overdrawn_hold).2
     = (Raise InsufficientFrozenBalanceError,
        (exec (day 1) (op_freeze_amount 0 300) overdrawn_hold).2)
   ∧ balance <$> wallets
       (exec (day 2) (op_unfreeze_amount 0 300)
          (exec (day 1) (op_freeze_amount 0 300) overdrawn_hold).2).2
       !! 0%nat
     = Some 9700)
  ∧ (exec (day 1) (op_freeze_amount 0 300) brimful_hold
     = (Raise InvalidOperation, brimful_hold)
     ∧ balance <$> wallets
         (exec (day 2) (op_unfreeze_amount 0 300)
            (exec (day 1) (op_freeze_amount 0 300) brimful_hold).2).2
         !! 0%nat
       = Some 10300).
Proof. repeat split; by vm_compute. Qed.

(** ** C8: one wallet per owner *)

Lemma list_find_owner (l : list UserWallet) (owner pk : nat) (w : UserWallet) :
  NoDup (user <$> l) → l !! pk = Some w → user w = owner →
  list_find (λ w, user w = owner) l = Some (pk, w).
Proof.
  intros Hnd Hw Hu. apply list_find_Some. split; [done|]. split; [done|].
  intros j y Hy Hlt Huy.
  assert (j = pk); [|lia].
  apply (NoDup_lookup _ _ _ owner Hnd);
    rewrite list_lookup_fmap; [rewrite Hy|rewrite Hw]; simpl; congruence.
Qed.

(** C8 (amended). The wallet table holds at most one wallet per owner —
    the uniqueness is on the owner alone, not on the pair of owner and
    currency.  [get_or_create] keeps it so: when the owner has a wallet it
    returns that wallet, whatever its currency, and writes nothing; when
    the owner has none it inserts one in the requested currency with zero
    balance, zero frozen balance and zero lifetime totals.  A second
    wallet for an owner, in whatever currency, cannot be inserted. *)
Theorem one_wallet_per_owner (now : datetime) (owner : nat) (c : Currency)
    (db : DB) :
  owners_unique db →
  let res := get_or_create now owner c db in
  owners_unique res.2
  ∧ (∀ pk w, wallets db !! pk = Some w → user w = owner →
       res = (Ok (set_id pk w, false), db)
       ∧ ∀ c', objects_create_wallet now owner c' db
               = (Raise IntegrityError, db))
  ∧ ((∀ w, w ∈ wallets db → user w ≠ owner) →
       ∃ w, res = (Ok (w, true),
                   mkDB (wallets db ++ [w]) (transactions db))
            ∧ id w = length (wallets db)
            ∧ user w = owner ∧ currency w = c
            ∧ balance w = 0 ∧ frozen_balance w = 0
            ∧ total_income w = 0 ∧ total_expense w = 0
            ∧ wallet_status w = normal).
Proof.
  intros Hnd res. subst res. unfold owners_unique in *.
  unfold get_or_create, objects_create_wallet, mbind, M_bind, mret, M_ret.
  split; [|split].
  - destruct (list_find _ _) as [[pk w]|] eqn:Hfind; simpl; [done|].
    apply list_find_None in Hfind.
    rewrite bool_decide_eq_false_2
      by (rewrite Exists_exists; intros (x & Hx & Hux);
          by apply (proj1 (Forall_forall _ _) Hfind x)).
    simpl. rewrite fmap_app. apply NoDup_app. split; [done|].
    split; [|apply NoDup_singleton].
    intros u Hu Hu'. apply list_elem_of_singleton in Hu'. subst u.
    apply list_elem_of_fmap in Hu as (x & Hx & Hin).
    by apply (proj1 (Forall_forall _ _) Hfind x).
  - intros pk w Hw Hu. rewrite (list_find_owner _ _ _ _ Hnd Hw Hu).
    split; [done|]. intros c'.
    rewrite bool_decide_eq_true_2; [done|].
    apply Exists_exists. exists w. split; [|done].
    by apply list_elem_of_lookup_2 in Hw.
  - intros Hnone.
    assert (Hfind : list_find (λ w, user w = owner) (wallets db) = None).
    { apply list_find_None, Forall_forall. intros x Hx. by apply Hnone. }
    rewrite Hfind.
    rewrite bool_decide_eq_false_2
      by (rewrite Exists_exists; intros (x & Hx & Hux);
          by apply (Hnone x)).
    eexists. split; [reflexivity|]. repeat split.
Qed.

(** The owner of a wallet in yuan asks for one in dollars: the wallet in
    yuan comes back and none is created.  An owner without a wallet gets a
    new one in the requested currency. *)
Lemma one_wallet_per_owner_witness :
  get_or_create (day 1) 1 USD two_wallets = (Ok (alice, false), two_wallets)
  ∧ owners_unique (get_or_create (day 1) 3 USD two_wallets).2.
Proof.
  assert (Hu : owners_unique two_wallets).
  { unfold owners_unique. simpl. apply NoDup_cons. split.
    - intros H. apply list_elem_of_singleton in H. discriminate.
    - apply NoDup_singleton. }
  split.
  - exact (proj1 (proj1 (proj2 (one_wallet_per_owner (day 1) 1 USD
      two_wallets Hu)) 0%nat alice eq_refl eq_refl)).
  - exact (proj1 (one_wallet_per_owner (day 1) 3 USD two_wallets Hu)).
Defined.

(** C8 as stated fails: for the pair (owner 1, USD), whose owner has a
    wallet in yuan, [get_or_create] neither returns a wallet of that pair
    nor creates one, and a wallet in dollars cannot be added for that
    owner: one owner does not hold wallets in two currencies. *)
Lemma second_currency_counterexample :
  owners_unique two_wallets
  ∧ (∃ w, get_or_create (day 1) 1 USD two_wallets
            = (Ok (w, false), two_wallets)
          ∧ user w = 1%nat ∧ currency w = CNY ∧ currency w ≠ USD)
  ∧ objects_create_wallet (day 1) 1 USD two_wallets
    = (Raise IntegrityError, two_wallets).
Proof.
  split; [|split].
  - unfold owners_unique. simpl. apply NoDup_cons. split.
    + intros H. apply list_elem_of_singleton in H. discriminate.
    + apply NoDup_singleton.
  - exists alice. repeat split. discriminate.
  - reflexivity.
Qed.

(** ** C9: the period aggregates *)

Lemma foldl_add_from (a : Z) (l : list Z) :
  foldl Z.add a l = a + foldl Z.add 0 l.
Proof.
  revert a. induction l as [|x l IH]; intros a; simpl; [lia|].
  rewrite (IH (a + x)), (IH (0 + x)). lia.
Qed.

Lemma sum_filter (P : WalletTransaction → Prop) `{∀ t, Decision (P t)}
    (l : list WalletTransaction) :
  foldl Z.add 0 (amount <$> filter P l)
  = sum_amounts (λ t, bool_decide (P t)) l.
Proof.
  induction l as [|t l IH]; [done|].
  rewrite filter_cons. cbn [sum_amounts].
  destruct (decide (P t)) as [Hp|Hp].
  - rewrite bool_decide_eq_true_2 by done. rewrite fmap_cons.
    cbn [foldl]. rewrite foldl_add_from, IH. lia.
  - rewrite bool_decide_eq_false_2 by done. rewrite IH. lia.
Qed.

Lemma sum_amounts_ext (f g : WalletTransaction → bool) l :
  (∀ t, f t = g t) → sum_amounts f l = sum_amounts g l.
Proof. intros Hfg. induction l as [|t l IH]; simpl; [done|]. by rewrite Hfg, IH. Qed.

Lemma is_spending_spec (t : WalletTransaction) :
  bool_decide (transaction_type t ∈ spending_types) = is_spending t.
Proof. unfold is_spending. by destruct (transaction_type t). Qed.

Lemma get_daily_spent_sum tz today self d db :
  get_daily_spent tz today self (Some d) db
  = dailySpent tz (id self) d (transactions db).
Proof.
  unfold get_daily_spent, dailySpent. rewrite sum_filter.
  apply sum_amounts_ext. intros t. rewrite <- is_spending_spec.
  repeat case_bool_decide; simpl; try done; tauto.
Qed.


Lemma exec_commits_iff now op db :
  (exec now op db).1 = Ok () ↔ permitted now op db.
Proof.
  destruct op; unfold_ops; unfold can_spend, can_refund, permitted; simpl.
  all: run_cases; fk_in_range; guards.
  all: try (split; [intros _|done]; repeat eexists; try done;
            try (fits_tests; fits_goal); try lia; fail).
  all: try (split; [done|]; intros Hperm; exfalso;
   decompose [ex and] Hperm; clear Hperm; unfold is_Some in *;
   repeat match goal with H : ∃ _, _ |- _ => destruct H end;
   simplify_eq; rec_simpl; try congruence; try lia;
   try match goal with
       | H : <[_:=_]> ?l !! ?i = None, H' : ?l !! ?i = Some _ |- _ =>
           apply lookup_ge_None in H; rewrite length_insert in H;
           apply lookup_lt_Some in H'; lia
       end;
   try (unfold can_refund in *; congruence);
   try (fits_tests; lia); fail).
  simplify_eq. split; [intros _|done]. eexists _, _.
  split; [reflexivity|]. split; [eassumption|].
  split; [done|]. split; [done|].
  split; [unfold can_refund; by rewrite H2|].
  fits_tests. split; fits_goal.
Qed.






(** ** Remarks on the model *)

(** The types summed by the period aggregates are expense types, but the
    expense type [penalty] is not among them. *)
Lemma spending_is_expense (t : WalletTransaction) :
  is_spending t = true → is_expense t = true.
Proof. unfold is_spending, is_expense. by destruct (transaction_type t). Qed.

Lemma penalty_not_counted :
  is_expense (entry 0 t_penalty 300 (day 0)) = true
  ∧ is_spending (entry 0 t_penalty 300 (day 0)) = false.
Proof. by split. Qed.


(** * Further properties *)

(** ** Shared lemmas *)

(** Look up a key in a table after a row was written. *)
Ltac lookup_written :=
  repeat match goal with
  | H : <[?i:=_]> ?l !! ?j = Some _ |- _ =>
      destruct (decide (i = j)) as [Heq|?];
        [ first [subst j | subst i | rewrite Heq in *];
          rewrite list_lookup_insert_eq in H
            by (rewrite ?length_insert; eapply lookup_lt_Some; eassumption)
        | rewrite list_lookup_insert_ne in H by done ]
  | |- context [<[?i:=_]> ?l !! ?j] =>
      destruct (decide (i = j)) as [Heq|?];
        [ first [subst j | subst i | rewrite Heq in *];
          rewrite list_lookup_insert_eq
            by (rewrite ?length_insert; eapply lookup_lt_Some; eassumption)
        | rewrite list_lookup_insert_ne by done ]
  end.

(** What one operation keeps of every wallet row. *)
Lemma exec_wallet_rows (now : datetime) (op : Op) (db : DB) :
  length (wallets (exec now op db).2) = length (wallets db)
  ∧ ∀ pk w, wallets db !! pk = Some w →
      ∃ w', wallets (exec now op db).2 !! pk = Some w'
            ∧ id w' = id w ∧ user w' = user w ∧ currency w' = currency w
            ∧ is_active w' = is_active w
            ∧ daily_limit w' = daily_limit w
            ∧ monthly_limit w' = monthly_limit w
            ∧ (wallet_status w' = wallet_status w
               ∨ op = op_freeze_wallet pk ∨ op = op_unfreeze_wallet pk).
Proof.
  destruct op; unfold_ops; simpl; run_cases; fk_in_range.
  all: split; [by rewrite ?length_insert|].
  all: intros k w0 Hk.
  all: try (exists w0; repeat split; try done; by left).
  all: lookup_written; simplify_eq; rewrite ?Hk.
  all: eexists; (split; [reflexivity|]); rec_simpl; repeat split; auto.
Qed.

Lemma clean_spec (w : UserWallet) :
  clean w = None
  ↔ 0 ≤ balance w ∧ 0 ≤ frozen_balance w ∧ daily_limit w ≤ monthly_limit w.
Proof.
  unfold clean.
  destruct (Z.ltb_spec (balance w) 0); [split; [done|lia]|].
  destruct (Z.ltb_spec (frozen_balance w) 0); [split; [done|lia]|].
  destruct (Z.ltb_spec (monthly_limit w) (daily_limit w));
    [split; [done|lia]|]. split; [lia|done].
Qed.

Lemma sum_amounts_app f l1 l2 :
  sum_amounts f (l1 ++ l2) = sum_amounts f l1 + sum_amounts f l2.
Proof. induction l1 as [|t l1 IH]; simpl; [done|]. rewrite IH. lia. Qed.

Lemma sum_amounts_insert f l i t t' :
  l !! i = Some t → f t' = f t → amount t' = amount t →
  sum_amounts f (<[i:=t']> l) = sum_amounts f l.
Proof.
  revert i. induction l as [|x l IH]; intros [|i] Hi Hf Ha; simpl in *;
    simplify_eq; [by rewrite Hf, Ha|]. by rewrite (IH i).
Qed.

(** The ledger of a committed operation: the old rows, of which a refund
    rewrites the status of one, then the new rows. *)
Lemma exec_ledger now op db :
  (exec now op db).1 = Ok () →
  ∃ old new,
    transactions (exec now op db).2 = old ++ new
    ∧ (old = transactions db
       ∨ ∃ i t s u, transactions db !! i = Some t
           ∧ old = <[i:=set_tx_updated_at u (set_status s t)]>
                     (transactions db))
    ∧ match op with
      | op_withdraw pk a _ _ =>
          ∃ t, new = [t] ∧ wallet t = pk ∧ transaction_type t = t_withdraw
               ∧ amount t = a ∧ created_at t = now
      | op_transfer_to pk target_pk a _ =>
          ∃ t1 t2, new = [t1; t2] ∧ wallet t1 = pk
               ∧ transaction_type t1 = t_transfer_out
               ∧ amount t1 = a ∧ created_at t1 = now
               ∧ transaction_type t2 = t_transfer_in
      | _ => ∃ t, new = [t] ∧ is_spending t = false
      end.
Proof.
  destruct op; unfold_ops; simpl; run_cases; fk_in_range; intros _.
  all: rewrite <- ?app_assoc; simpl.
  all: eexists _, _; (split; [reflexivity|]).
  all: split; [first [by left | right; eexists _, _, _, _; split; [eassumption|reflexivity]]|].
  all: first [ eexists _, _; split; [reflexivity|]; by rec_simpl
             | eexists; split; [reflexivity|]; by rec_simpl ].
Qed.

Lemma sum_amounts_old f now op db old new :
  (∀ t s u, f (set_tx_updated_at u (set_status s t)) = f t) →
  transactions (exec now op db).2 = old ++ new →
  (old = transactions db
   ∨ ∃ i t s u, transactions db !! i = Some t
       ∧ old = <[i:=set_tx_updated_at u (set_status s t)]>
                 (transactions db)) →
  sum_amounts f (transactions (exec now op db).2)
  = sum_amounts f (transactions db) + sum_amounts f new.
Proof.
  intros Hf -> [->|(i & t & s & u & Hi & ->)]; rewrite sum_amounts_app;
    [done|].
  by rewrite (sum_amounts_insert f _ i t) by (try apply Hf; done).
Qed.

(** The new rows of the ledger, summed under a filter. *)
Ltac sum_new_rows op :=
  destruct op; simpl in *;
  repeat match goal with
  | H : ∃ _, _ |- _ => destruct H
  | H : _ ∧ _ |- _ => destruct H
  end; subst; simpl;
  repeat match goal with
  | H : is_spending _ = _ |- _ => rewrite H
  | H : transaction_type _ = _ |- _ => unfold is_spending; rewrite H
  | H : created_at _ = _ |- _ => rewrite H
  end; simpl; rewrite ?andb_false_r; simpl;
  repeat case_bool_decide; simpl; try done; try lia; try tauto.

Lemma exec_daily_spent tz today now op db self d :
  (exec now op db).1 = Ok () →
  get_daily_spent tz today self (Some d) (exec now op db).2
  = get_daily_spent tz today self (Some d) db
    + (if bool_decide (date_of (localtime tz now) = d)
       then spend_of op (id self) else 0).
Proof.
  intros Hok.
  destruct (exec_ledger now op db Hok) as (old & new & Hl & Hold & Hnew).
  rewrite !get_daily_spent_sum. unfold dailySpent.
  match goal with |- sum_amounts ?f _ = _ =>
    rewrite (sum_amounts_old f now op db old new (λ _ _ _, eq_refl) Hl Hold)
  end.
  f_equal. sum_new_rows op.
Qed.


Lemma holdings_insert ws i w w' :
  ws !! i = Some w →
  holdings (<[i:=w']> ws) = holdings ws - total_balance w + total_balance w'.
Proof.
  revert i. induction ws as [|x ws IH]; intros [|i] Hi; simpl in *;
    simplify_eq; [lia|]. rewrite (IH i Hi). lia.
Qed.

Lemma exec_keeps_books now op db :
  ¬ same_row_transfer op →
  Forall books_balanced (wallets db) →
  Forall books_balanced (wallets (exec now op db).2).
Proof.
  intros Hop Hb.
  destruct op; unfold_ops; simpl; run_cases; fk_in_range.
  all: simpl in Hop.
  all: rewrite ?list_lookup_insert_ne in * by done; simplify_eq.
  all: repeat match goal with
       | H : wallets _ !! _ = Some _ |- _ =>
           pose proof (Forall_lookup_1 _ _ _ _ Hb H); revert H
       end; intros.
  all: repeat match goal with
       | |- Forall _ (<[_:=_]> _) => apply Forall_insert
       end; try done.
  all: unfold books_balanced in *; rec_simpl; lia.
Qed.

Lemma exec_keeps_clean now op db :
  amounts_nonneg db →
  Forall (λ w, clean w = None) (wallets db) →
  Forall (λ w, clean w = None) (wallets (exec now op db).2).
Proof.
  intros Ha Hc.
  assert (Hb : balances_nonneg db).
  { eapply Forall_impl; [exact Hc|]. intros w Hw.
    apply clean_spec in Hw. split; tauto. }
  destruct (exec_preserves_nonneg now op db Hb Ha) as [Hb' _].
  destruct (exec_wallet_rows now op db) as [Hlen Hrows].
  apply Forall_lookup. intros pk w' Hw'.
  destruct (lookup_lt_is_Some_2 (wallets db) pk) as [w Hw].
  { rewrite <- Hlen. by eapply lookup_lt_Some. }
  destruct (Hrows pk w Hw) as (w2 & Hw2 & _ & _ & _ & _ & Hd & Hm & _).
  simplify_eq.
  pose proof (Forall_lookup_1 _ _ _ _ Hc Hw) as Hcw.
  pose proof (Forall_lookup_1 _ _ _ _ Hb' Hw') as [? ?].
  apply clean_spec in Hcw. apply clean_spec. lia.
Qed.

(** ** The wallet table under the operations *)

(** X1. No history of ledger operations adds or removes a wallet, and every
    wallet keeps its key, owner, currency, active flag and both limits in
    every database the history passes through: the operations write the
    balances, the totals, the wallet status and the time stamps only. *)
Theorem wallet_identity_stable (ops : list (datetime * Op)) (db : DB)
    (pk : nat) (w : UserWallet) :
  wallets db !! pk = Some w →
  Forall (λ s, length (wallets s) = length (wallets db)
               ∧ ∃ w', wallets s !! pk = Some w'
                   ∧ id w' = id w ∧ user w' = user w
                   ∧ currency w' = currency w
                   ∧ is_active w' = is_active w
                   ∧ daily_limit w' = daily_limit w
                   ∧ monthly_limit w' = monthly_limit w)
    (states ops db).
Proof.
  revert db w. induction ops as [|[now op] ops IH]; intros db w Hw; simpl.
  - constructor; [|constructor]. split; [done|]. by exists w.
  - constructor. { split; [done|]. by exists w. }
    destruct (exec_wallet_rows now op db) as [Hlen Hrows].
    destruct (Hrows pk w Hw) as (w2 & Hw2 & Hi & Hu & Hc & Ha & Hd & Hm & _).
    eapply Forall_impl; [exact (IH _ w2 Hw2)|].
    intros s [Hl (w' & Hs & ? & ? & ? & ? & ? & ?)]. split; [congruence|].
    exists w'. repeat split; congruence.
Qed.

Lemma wallet_identity_stable_witness :
  Forall (λ s, length (wallets s) = length (wallets two_wallets)
               ∧ ∃ w', wallets s !! 1%nat = Some w'
                   ∧ id w' = id bob ∧ user w' = user bob
                   ∧ currency w' = currency bob
                   ∧ is_active w' = is_active bob
                   ∧ daily_limit w' = daily_limit bob
                   ∧ monthly_limit w' = monthly_limit bob)
    (states [(day 1, op_transfer_to 0 1 3000 "");
             (day 1, op_freeze_wallet 1);
             (day 2, op_deposit 1 500 "manual" "");
             (day 3, op_withdraw 7 100 "manual" "")] two_wallets).
Proof.
  exact (wallet_identity_stable _ two_wallets 1 bob eq_refl).
Defined.

(** X2. A wallet's lifetime totals account for its money: if
    [balance + frozen_balance = total_income - total_expense] holds for
    every wallet, it holds in every database reached by a history in
    which no transfer names the sender's own row as the receiver. *)
Theorem books_stay_balanced (ops : list (datetime * Op)) (db : DB) :
  Forall (λ o, ¬ same_row_transfer o.2) ops →
  Forall books_balanced (wallets db) →
  Forall (λ s, Forall books_balanced (wallets s)) (states ops db).
Proof.
  revert db. induction ops as [|[now op] ops IH]; intros db Hops Hb; simpl.
  - by repeat constructor.
  - apply Forall_cons in Hops as [Hop Hops]. constructor; [done|].
    apply IH; [done|]. by apply exec_keeps_books.
Qed.

Lemma books_stay_balanced_witness :
  Forall (λ s, Forall books_balanced (wallets s))
    (states [(day 1, op_deposit 0 10000 "manual" "");
             (day 1, op_transfer_to 0 1 3000 "");
             (day 2, op_freeze_amount 0 3000);
             (day 3, op_withdraw 1 800 "manual" "")] opened).
Proof.
  apply books_stay_balanced.
  - repeat constructor; simpl; try tauto; lia.
  - repeat constructor.
Defined.

(** X3. No operation lowers [total_income] or [total_expense] of any
    wallet, on a ledger whose amounts respect the declared minimum of the
    column. *)
Theorem totals_never_decrease (now : datetime) (op : Op) (db : DB)
    (pk : nat) (w : UserWallet) :
  amounts_nonneg db → wallets db !! pk = Some w →
  ∃ w', wallets (exec now op db).2 !! pk = Some w'
        ∧ total_income w ≤ total_income w'
        ∧ total_expense w ≤ total_expense w'.
Proof.
  unfold amounts_nonneg. intros Ha Hk.
  destruct op; unfold_ops; simpl; run_cases; fk_in_range; z_tests.
  all: try (exists w; repeat split; try done; lia).
  all: repeat match goal with
       | H : transactions _ !! _ = Some _ |- _ =>
           pose proof (Forall_lookup_1 _ _ _ _ Ha H); revert H
       end; intros.
  all: lookup_written; simplify_eq; rewrite ?Hk.
  all: eexists; (split; [reflexivity|]); rec_simpl; lia.
Qed.

Lemma totals_never_decrease_witness :
  ∃ w', wallets (exec (day 10) (op_process_refund 0) paid).2 !! 0%nat
        = Some w'
        ∧ total_income alice ≤ total_income w'
        ∧ total_expense alice ≤ total_expense w'.
Proof.
  apply (totals_never_decrease (day 10) (op_process_refund 0) paid 0 alice).
  - repeat constructor; simpl; lia.
  - reflexivity.
Defined.

(** X4. The money held in all wallets (balances and frozen balances)
    changes only where it enters or leaves the system: a committed deposit
    adds its amount, a withdrawal takes its amount, a refund adds the
    amount of the refunded entry, and every other operation, a transfer
    between two rows included, leaves the sum as it was. *)
Theorem money_supply (now : datetime) (op : Op) (db : DB) :
  (exec now op db).1 = Ok () → ¬ same_row_transfer op →
  holdings (wallets (exec now op db).2)
  = holdings (wallets db) + net_flow op db.
Proof.
  destruct op; unfold_ops; simpl; run_cases; fk_in_range; intros _ Hop;
    simpl in Hop.
  all: rewrite ?list_lookup_insert_ne in * by done; simplify_eq.
  all: repeat erewrite holdings_insert
         by (rewrite ?list_lookup_insert_ne by done; eassumption).
  all: unfold net_flow, total_balance; rec_simpl;
       repeat match goal with H : transactions _ !! _ = Some _ |- _ =>
         rewrite H end; lia.
Qed.

Lemma money_supply_witness :
  holdings (wallets (exec (day 1) (op_transfer_to 0 1 3000 "")
                       two_wallets).2)
  = holdings (wallets two_wallets) + 0.
Proof.
  apply (money_supply (day 1) (op_transfer_to 0 1 3000 "") two_wallets).
  - reflexivity.
  - simpl. lia.
Defined.

(** X5. A database in which every wallet passes [clean], on a ledger of
    valid amounts, stays so under every history: no operation leaves a
    wallet that [clean] would reject. *)
Theorem clean_preserved (ops : list (datetime * Op)) (db : DB) :
  amounts_nonneg db →
  Forall (λ w, clean w = None) (wallets db) →
  Forall (λ s, Forall (λ w, clean w = None) (wallets s)) (states ops db).
Proof.
  revert db. induction ops as [|[now op] ops IH]; intros db Ha Hc; simpl.
  - by repeat constructor.
  - constructor; [done|].
    assert (Hb : balances_nonneg db).
    { eapply Forall_impl; [exact Hc|]. intros w Hw.
      apply clean_spec in Hw. split; tauto. }
    destruct (exec_preserves_nonneg now op db Hb Ha) as [_ Ha'].
    apply IH; [done|]. by apply exec_keeps_clean.
Qed.

Lemma clean_preserved_witness :
  Forall (λ s, Forall (λ w, clean w = None) (wallets s))
    (states [(day 1, op_withdraw 0 4000 "manual" "");
             (day 2, op_freeze_amount 0 6000);
             (day 3, op_process_refund 0)] paid).
Proof.
  apply clean_preserved.
  - repeat constructor; simpl; lia.
  - repeat constructor.
Defined.

(** ** The ledger under the operations *)

(** X6. The ledger is append-only: an operation keeps every existing row
    at its position with its wallet, type, amount, [balance_after],
    source, destination, reference and creation time.  The one column an
    operation rewrites is [status], and only [process_refund] does so, on
    the row it refunds, from completed to refunded. *)
Theorem ledger_append_only (now : datetime) (op : Op) (db : DB)
    (i : nat) (t : WalletTransaction) :
  transactions db !! i = Some t →
  ∃ t', transactions (exec now op db).2 !! i = Some t'
        ∧ tx_id t' = tx_id t ∧ wallet t' = wallet t
        ∧ transaction_type t' = transaction_type t
        ∧ amount t' = amount t ∧ balance_after t' = balance_after t
        ∧ source t' = source t ∧ destination t' = destination t
        ∧ reference_id t' = reference_id t ∧ created_at t' = created_at t
        ∧ (status t' = status t
           ∨ (op = op_process_refund i ∧ transaction_type t = t_payment
              ∧ status t = completed ∧ status t' = refunded)).
Proof.
  intros Hi. pose proof (lookup_lt_Some _ _ _ Hi) as Hlt.
  destruct op; unfold_ops; unfold can_refund in *; simpl; run_cases;
    fk_in_range.
  all: rewrite ?lookup_app_l by (rewrite ?length_app, ?length_insert; lia).
  all: try (exists t; repeat split; try done; by left).
  lookup_written; simplify_eq; rewrite ?Hi.
  - eexists. split; [reflexivity|]. rec_simpl. repeat split.
    right. repeat split.
    + guards. match goal with H : _ && _ && _ = true |- _ =>
        apply andb_true_iff in H as [H _]; apply andb_true_iff in H as [H _];
        apply bool_decide_eq_true, list_elem_of_singleton in H end. done.
    + guards. match goal with H : _ && _ && _ = true |- _ =>
        apply andb_true_iff in H as [H _]; apply andb_true_iff in H as [_ H];
        by apply bool_decide_eq_true in H end.
  - exists t. repeat split; try done; by left.
Qed.

Lemma ledger_append_only_witness :
  ∃ t', transactions (exec (day 10) (op_process_refund 0) paid).2 !! 0%nat
        = Some t'
        ∧ tx_id t' = 0%nat ∧ wallet t' = 0%nat
        ∧ transaction_type t' = t_payment
        ∧ amount t' = 5000 ∧ balance_after t' = 10000
        ∧ source t' = "" ∧ destination t' = "shop"
        ∧ reference_id t' = "order-1" ∧ created_at t' = day 0
        ∧ (status t' = completed
           ∨ (op_process_refund 0 = op_process_refund 0
              ∧ t_payment = t_payment
              ∧ completed = completed ∧ status t' = refunded)).
Proof.
  exact (ledger_append_only (day 10) (op_process_refund 0) paid 0
           (payment_entry (day 0) 5000) eq_refl).
Defined.



(** X8. The remaining daily limit that the statistics report falls by
    what the wallet spends and by nothing else: after a committed
    operation it is the former value less the amount of a withdrawal or
    outgoing transfer of this wallet, when the date of the operation in
    the current time zone is the date that the moment of the report has
    in UTC, and the former value otherwise. *)
Theorem remaining_limit_after (tz : TimeZone) (today now : datetime)
    (op : Op) (db : DB) (pk : nat) (w w' : UserWallet) :
  (exec now op db).1 = Ok () →
  wallets db !! pk = Some w →
  wallets (exec now op db).2 !! pk = Some w' →
  get_daily_remaining tz today (set_id pk w') (exec now op db).2
  = get_daily_remaining tz today (set_id pk w) db
    - (if bool_decide (date_of (localtime tz now) = date_of today)
       then spend_of op pk else 0).
Proof.
  intros Hok Hw Hw'. unfold get_daily_remaining.
  destruct (exec_wallet_rows now op db) as [_ Hrows].
  destruct (Hrows pk w Hw) as (w2 & Hw2 & _ & _ & _ & _ & Hd & _).
  simplify_eq. rec_simpl. rewrite Hd.
  assert (Hs : ∀ o d, get_daily_spent tz today o None d
                      = get_daily_spent tz today o (Some (date_of today)) d)
    by done.
  rewrite !Hs.
  rewrite (exec_daily_spent tz today now op db (set_id pk w')
             (date_of today) Hok).
  rec_simpl.
  replace (get_daily_spent tz today (set_id pk w) (Some (date_of today)) db)
    with (get_daily_spent tz today (set_id pk w') (Some (date_of today)) db)
    by reflexivity.
  lia.
Qed.

Lemma remaining_limit_after_witness :
  get_daily_remaining UTC (day 0)
    (set_id 0 (set_balance 8500 (set_total_expense 1500
       (set_last_transaction_at (Some (day 0))
          (set_updated_at (day 0) alice)))))
    (exec (day 0) (op_withdraw 0 1500 "manual" "") spring_ledger).2
  = get_daily_remaining UTC (day 0) (set_id 0 alice) spring_ledger - 1500.
Proof.
  exact (remaining_limit_after UTC (day 0) (day 0)
    (op_withdraw 0 1500 "manual" "") spring_ledger 0 alice _
    eq_refl eq_refl eq_refl).
Defined.

(** ** Filters against the attributes they select by *)

(** X9. On a wallet whose balance is not negative the filter
    [filter_balance_status] selects by the attribute [balance_status]: a
    wallet passes the filter for one of the four values exactly when the
    attribute has that value.  On a negative balance the two disagree: the
    attribute is empty, and the wallet passes the filter for no value. *)
Theorem balance_status_filter (queryset : list UserWallet) (value : string)
    (w : UserWallet) :
  value ∈ ["empty"; "low"; "normal"; "high"] →
  (0 ≤ balance w →
     (w ∈ filter_balance_status queryset value
      ↔ w ∈ queryset ∧ balance_status w = value))
  ∧ (balance w < 0 →
       balance_status w = "empty"
       ∧ w ∉ filter_balance_status queryset value).
Proof.
  intros Hv. unfold filter_balance_status, balance_status.
  repeat (apply elem_of_cons in Hv as [->|Hv]); [| | | |by apply elem_of_nil in Hv].
  all: simpl; split; intros Hb.
  all: rewrite ?list_elem_of_filter.
  all: destruct (Z.leb_spec (balance w) 0);
       destruct (Z.ltb_spec (balance w) 10000);
       destruct (Z.ltb_spec (balance w) 100000); try lia.
  all: try (split; [done|]); try (intros [? ?]; lia).
  all: split; intros [? ?]; try done; try lia; (split; [try lia; try done|done]).
Qed.

Lemma balance_status_filter_witness :
  bob ∈ filter_balance_status [alice; bob] "low"
  ↔ bob ∈ [alice; bob] ∧ balance_status bob = "low".
Proof.
  apply (balance_status_filter [alice; bob] "low" bob).
  - repeat constructor.
  - simpl. lia.
Defined.

(** X10. The filter [filter_flow_type] agrees with the methods of a ledger
    row: income selects the rows on which [is_income] holds, expense
    those on which [is_expense] holds, neutral those on which neither
    does; and no row is both income and expense. *)
Theorem flow_type_partition (queryset : list WalletTransaction)
    (t : WalletTransaction) :
  (t ∈ filter_flow_type queryset "income"
     ↔ t ∈ queryset ∧ is_income t = true)
  ∧ (t ∈ filter_flow_type queryset "expense"
     ↔ t ∈ queryset ∧ is_expense t = true)
  ∧ (t ∈ filter_flow_type queryset "neutral"
     ↔ t ∈ queryset ∧ is_income t = false ∧ is_expense t = false)
  ∧ (is_income t && is_expense t = false).
Proof.
  unfold filter_flow_type, is_income, is_expense. simpl.
  rewrite !list_elem_of_filter.
  destruct (transaction_type t); simpl;
    repeat split; intros; destruct_and?; try done;
    repeat match goal with
    | H : _ ∈ _ :: _ |- _ => apply elem_of_cons in H as [?|H]; [done|]
    | H : _ ∈ [] |- _ => by apply elem_of_nil in H
    | |- _ ∈ _ => by repeat constructor
    end.
Qed.

(** X11. The filter [filter_can_refund] with the value true selects the
    rows on which [can_refund] holds.  With the value false it selects
    only rows that cannot be refunded, but not all of them: a completed
    payment older than thirty days cannot be refunded and passes the
    filter for neither value, and these are the only rows left out. *)
Theorem refund_filter (now : datetime) (queryset : list WalletTransaction)
    (t : WalletTransaction) :
  (t ∈ filter_can_refund now queryset true
     ↔ t ∈ queryset ∧ can_refund now t = true)
  ∧ (t ∈ filter_can_refund now queryset false → can_refund now t = false)
  ∧ (t ∈ queryset →
     ((¬ t ∈ filter_can_refund now queryset true
       ∧ ¬ t ∈ filter_can_refund now queryset false)
      ↔ (transaction_type t = t_payment ∧ status t = completed
         ∧ created_at t < now - timedelta_days 30))).
Proof.
  unfold filter_can_refund. rewrite !list_elem_of_filter.
  rewrite can_refund_spec, list_elem_of_singleton.
  assert (Hc : can_refund now t = false ↔
               ¬ (transaction_type t = t_payment ∧ status t = completed
                  ∧ now - created_at t ≤ timedelta_days 30)).
  { rewrite <- can_refund_spec. by destruct (can_refund now t). }
  rewrite Hc.
  destruct (decide (transaction_type t = t_payment));
    destruct (decide (status t = completed));
    destruct (decide (now - timedelta_days 30 ≤ created_at t));
    repeat split; intros; destruct_and?; try done; try lia; try tauto;
    try (intros [? ?]; tauto).
Qed.

(** ** Opening a wallet *)

(** X12. [get_or_create] always returns a wallet of the owner asked for,
    and asking again, at any later time and for any currency, returns the
    same wallet, reports that nothing was created and leaves the database
    as the first call left it. *)
Theorem get_or_create_idempotent (now later : datetime) (owner : nat)
    (c c' : Currency) (db : DB) :
  ∃ w created,
    (get_or_create now owner c db).1 = Ok (w, created)
    ∧ user w = owner
    ∧ get_or_create later owner c' (get_or_create now owner c db).2
      = (Ok (w, false), (get_or_create now owner c db).2).
Proof.
  unfold get_or_create, objects_create_wallet, mbind, M_bind, mret, M_ret.
  destruct (list_find _ (wallets db)) as [[pk w]|] eqn:Hfind; simpl.
  - exists (set_id pk w), false. rewrite Hfind.
    apply list_find_Some in Hfind as (_ & Hu & _). done.
  - pose proof Hfind as Hnone. apply list_find_None in Hnone.
    rewrite bool_decide_eq_false_2
      by (rewrite Exists_exists; intros (x & Hx & Hux);
          by apply (proj1 (Forall_forall _ _) Hnone x)).
    simpl. eexists _, true. split; [reflexivity|]. split; [done|].
    assert (Hf : list_find (λ w, user w = owner)
                   (wallets db ++ [new_wallet now (length (wallets db)) owner c])
                 = Some (length (wallets db),
                         new_wallet now (length (wallets db)) owner c)).
    { apply list_find_app_Some. right. split; [done|]. split; [done|].
      replace (length (wallets db) - length (wallets db))%nat with 0%nat
        by lia. simpl. by rewrite decide_True. }
    by rewrite Hf.
Qed.

(** ** The status of a wallet and its active flag *)

(** X13. [unfreeze_wallet] on a wallet that can be read sets the status
    to normal whatever it was (frozen, suspended or closed) and keeps the
    balance, after which a withdrawal of a positive amount commits exactly
    when the wallet is active, holds the amount, and its lifetime expense
    plus the amount fits the 15 digits of the column; [freeze_wallet] sets
    the status to frozen, after which a withdrawal raises the error of an
    abnormal status and leaves the database as it was. *)
Theorem wallet_status_switch (now later : datetime) (pk : nat) (db : DB)
    (w : UserWallet) (a : Z) (dest ref : string) :
  wallets db !! pk = Some w → readable w = true → 0 < a →
  let thawed := (exec now (op_unfreeze_wallet pk) db).2 in
  let held := (exec now (op_freeze_wallet pk) db).2 in
  (wallet_status <$> wallets thawed !! pk = Some normal
   ∧ balance <$> wallets thawed !! pk = Some (balance w)
   ∧ ((exec later (op_withdraw pk a dest ref) thawed).1 = Ok ()
      ↔ is_active w = true ∧ a ≤ balance w
        ∧ fits 15 (total_expense w + a) = true))
  ∧ (wallet_status <$> wallets held !! pk = Some frozen
     ∧ exec later (op_withdraw pk a dest ref) held
       = (Raise AccountStatusError, held)).
Proof.
  intros Hw Hrw Ha thawed held. subst thawed held.
  pose proof (lookup_lt_Some _ _ _ Hw) as Hlt.
  pose proof (lookup_lt_length _ _ _ Hw) as Hlb.
  assert (Hzero : fits 15 (balance w) = true)
    by (fits_tests; fits_goal).
  split.
  - assert (Hdb : (exec now (op_unfreeze_wallet pk) db).2
       = mkDB (<[pk:=set_wallet_status normal (set_updated_at now w)]>
                 (wallets db))
              (transactions (exec now (op_unfreeze_wallet pk) db).2)).
    { unfold_ops. rewrite Hw. simpl. rewrite Hrw. simpl. rec_simpl.
      rewrite Hw. simpl. rec_simpl. rewrite Hzero. simpl.
      by rewrite length_insert, Hlb. }
    rewrite exec_commits_iff. rewrite Hdb. simpl.
    rewrite list_lookup_insert_eq by done. simpl.
    split; [done|]. split; [done|]. split.
    + intros (w' & ? & ? & ? & ? & ? & ? & ?). simplify_eq. done.
    + intros (? & ? & ?). eexists. repeat split; done.
  - assert (Hdb : (exec now (op_freeze_wallet pk) db).2
       = mkDB (<[pk:=set_wallet_status frozen (set_updated_at now w)]>
                 (wallets db))
              (transactions (exec now (op_freeze_wallet pk) db).2)).
    { unfold_ops. rewrite Hw. simpl. rewrite Hrw. simpl. rec_simpl.
      rewrite Hw. simpl. rec_simpl. rewrite Hzero. simpl.
      by rewrite length_insert, Hlb. }
    rewrite Hdb. split.
    + simpl. by rewrite list_lookup_insert_eq by done.
    + generalize (transactions (exec now (op_freeze_wallet pk) db).2).
      intros l. unfold_ops. unfold can_spend. simpl.
      rewrite list_lookup_insert_eq by done. simpl.
      replace (readable (set_wallet_status frozen (set_updated_at now w)))
        with (readable w) by reflexivity.
      rewrite Hrw. simpl.
      destruct (Z.leb_spec a 0); [lia|]. done.
Qed.

Lemma wallet_status_switch_witness :
  (exec (day 2) (op_withdraw 0 1000 "manual" "")
     (exec (day 1) (op_unfreeze_wallet 0) closed_wallet).2).1 = Ok ().
Proof.
  apply (proj2 (proj2 (proj1 (wallet_status_switch (day 1) (day 2) 0
    closed_wallet (set_wallet_status closed alice) 1000 "manual" ""
    eq_refl eq_refl ltac:(lia))))).
  split; [reflexivity|]. split; [simpl; lia|reflexivity].
Defined.

(** X14. [deactivate] on a wallet that can be read clears the active flag
    of the wallet's row, sets the column [status] of the mixin to
    inactive, and writes nothing else.  Afterwards no withdrawal and no
    transfer out of the wallet commits (on a wallet of normal status a
    withdrawal of a positive amount raises the error of a disabled
    wallet), while a deposit of a positive amount still commits, when the
    amounts it writes fit their columns; [activate] sets the flag again
    and the column to active, whatever that column held before. *)
Theorem deactivate_blocks_spending (now : datetime) (pk : nat) (db : DB)
    (w : UserWallet) :
  wallets db !! pk = Some w → readable w = true →
  let off := (deactivate (set_id pk w) db).2 in
  off = mkDB (<[pk:=set_record_status st_inactive (set_is_active false w)]>
                (wallets db))
             (transactions db)
  ∧ (∀ a dest ref, (exec now (op_withdraw pk a dest ref) off).1 ≠ Ok ())
  ∧ (∀ target_pk a ref,
       (exec now (op_transfer_to pk target_pk a ref) off).1 ≠ Ok ())
  ∧ (∀ a dest ref, wallet_status w = normal → 0 < a →
       (exec now (op_withdraw pk a dest ref) off).1
       = Raise AccountDisabledError)
  ∧ (∀ a src ref, 0 < a → fits 15 a = true →
       fits 15 (balance w + a) = true →
       fits 15 (total_income w + a) = true →
       (exec now (op_deposit pk a src ref) off).1 = Ok ())
  ∧ (activate (set_id pk (set_record_status st_inactive
                            (set_is_active false w))) off).2
    = mkDB (<[pk:=set_record_status st_active (set_is_active true w)]>
              (wallets db))
           (transactions db).
Proof.
  intros Hw Hrw off.
  pose proof (lookup_lt_Some _ _ _ Hw) as Hlt.
  assert (Hoff : off
    = mkDB (<[pk:=set_record_status st_inactive (set_is_active false w)]>
              (wallets db))
           (transactions db)).
  { subst off. unfold deactivate, save_is_active. simpl. by rewrite Hw. }
  rewrite Hoff. clear off Hoff.
  split; [done|]. split; [|split; [|split; [|split]]].
  - intros a dest ref. rewrite exec_commits_iff. simpl.
    rewrite list_lookup_insert_eq by done.
    intros (w' & ? & ? & ? & ? & ? & ?). simplify_eq.
  - intros target_pk a ref. rewrite exec_commits_iff. simpl.
    rewrite list_lookup_insert_eq by done.
    intros (w' & r & ? & ? & ? & ? & ? & ? & ? & ? & ?). simplify_eq.
  - intros a dest ref Hn Ha. unfold_ops. unfold can_spend. simpl.
    rewrite list_lookup_insert_eq by done. simpl.
    replace (readable (set_record_status st_inactive
                         (set_is_active false w)))
      with (readable w) by reflexivity.
    rewrite Hrw. simpl.
    destruct (Z.leb_spec a 0); [lia|]. rec_simpl.
    cbn [set_is_active set_record_status wallet_status is_active].
    rec_simpl. rewrite Hn. done.
  - intros a src ref Ha ? ? ?. rewrite exec_commits_iff. simpl.
    rewrite list_lookup_insert_eq by done.
    eexists. split; [reflexivity|]. repeat split; done.
  - unfold activate, save_is_active. simpl.
    rewrite list_lookup_insert_eq by done. simpl.
    by rewrite list_insert_insert_eq.
Qed.

Lemma deactivate_blocks_spending_witness :
  (exec (day 1) (op_withdraw 0 1000 "manual" "")
     (deactivate (set_id 0 alice) two_wallets).2).1
  = Raise AccountDisabledError.
Proof.
  exact (proj1 (proj2 (proj2 (proj2 (deactivate_blocks_spending (day 1) 0
    two_wallets alice eq_refl eq_refl)))) 1000 "manual" "" eq_refl
    ltac:(lia)).
Defined.

(** X15. The bulk actions of the admin set the status of the selected
    wallets and of no other, and write no ledger row, unlike
    [freeze_wallet] and [unfreeze_wallet], which record theirs.  A wallet
    frozen this way refuses every withdrawal, and the bulk unfreeze makes
    its status normal whatever it was before the freeze. *)
Theorem admin_freeze_unrecorded (now : datetime) (selected : list nat)
    (db : DB) (pk : nat) (w : UserWallet) :
  wallets db !! pk = Some w → pk ∈ selected →
  let held := (freeze_wallets selected db).2 in
  transactions held = transactions db
  ∧ wallets held !! pk = Some (set_wallet_status frozen w)
  ∧ (∀ k v, k ∉ selected → wallets db !! k = Some v →
       wallets held !! k = Some v)
  ∧ (∀ a dest ref, (exec now (op_withdraw pk a dest ref) held).1 ≠ Ok ())
  ∧ wallets (unfreeze_wallets selected held).2 !! pk
    = Some (set_wallet_status normal w).
Proof.
  intros Hw Hsel held. subst held.
  unfold freeze_wallets, unfreeze_wallets, update_wallet_status.
  cbn [snd wallets transactions].
  split; [done|].
  assert (Hheld : imap (λ pk w, if bool_decide (pk ∈ selected)
                         then set_wallet_status frozen w else w) (wallets db)
                  !! pk = Some (set_wallet_status frozen w)).
  { rewrite list_lookup_imap, Hw. simpl.
    by rewrite bool_decide_eq_true_2. }
  split; [done|]. split; [|split].
  - intros k v Hk Hv. rewrite list_lookup_imap, Hv. simpl.
    by rewrite bool_decide_eq_false_2.
  - intros a dest ref. rewrite exec_commits_iff. simpl. rewrite Hheld.
    intros (w' & ? & ? & ? & ? & ?). simplify_eq.
  - rewrite list_lookup_imap, Hheld. simpl.
    by rewrite bool_decide_eq_true_2.
Qed.

Lemma admin_freeze_unrecorded_witness :
  transactions (freeze_wallets [0%nat] closed_wallet).2
  = transactions closed_wallet
  ∧ wallets (unfreeze_wallets [0%nat]
               (freeze_wallets [0%nat] closed_wallet).2).2 !! 0%nat
    = Some (set_wallet_status normal (set_wallet_status closed alice)).
Proof.
  pose proof (admin_freeze_unrecorded (day 1) [0%nat] closed_wallet 0
    (set_wallet_status closed alice) eq_refl ltac:(repeat constructor))
    as H.
  exact (conj (proj1 H) (proj2 (proj2 (proj2 (proj2 H))))).
Defined.

(** ** Refunds and who may ask for them *)

(** X16. What [RefundPermission] grants, [process_refund] carries out: if
    the permission admits the request on a row of the ledger that can be
    read, the requester owns the wallet of the row and the row can be
    refunded; and the refund of the row at that moment commits and credits
    the wallet with the row's amount, provided that the balance and the
    lifetime income of the wallet, credited with that amount, fit the 15
    digits of their columns. *)
Theorem refund_permission_grants (now : datetime) (request_user tx : nat)
    (t : WalletTransaction) (db : DB) :
  transactions db !! tx = Some t → tx_readable t = true →
  (refund_permission now request_user (set_tx_id tx t) db).1 = Ok true →
  ∃ w, wallets db !! wallet t = Some w ∧ user w = request_user
      ∧ can_refund now t = true
      ∧ (fits 15 (balance w + amount t)
         && fits 15 (total_income w + amount t) = true →
         (exec now (op_process_refund tx) db).1 = Ok ()
         ∧ balance <$> wallets (exec now (op_process_refund tx) db).2
                         !! wallet t
           = Some (balance w + amount t)).
Proof.
  intros Ht Hrt.
  unfold refund_permission, get_wallet, mbind, M_bind, mret, M_ret.
  rec_simpl.
  destruct (wallets db !! wallet t) as [w|] eqn:Hw; simpl; [|done].
  destruct (readable w) eqn:Hrw; simpl; [|done].
  rec_simpl. case_bool_decide as Hu; simpl; [done|].
  replace (can_refund now (set_tx_id tx t)) with (can_refund now t)
    by reflexivity.
  destruct (can_refund now t) eqn:Hc; simpl; [intros _|done].
  try apply dec_stable in Hu.
  pose proof (lookup_lt_length _ _ _ Hw) as Hlb.
  pose proof (lookup_lt_Some _ _ _ Hw) as Hlt.
  exists w. split; [done|]. split; [done|]. split; [done|]. intros Hfit.
  assert (Hfa : fits 15 (amount t) && fits 15 (balance w + amount t) = true)
    by (fits_tests; fits_goal).
  unfold_ops. rewrite Ht. simpl. rewrite Hrt. simpl.
  replace (can_refund now (set_tx_id tx t)) with (can_refund now t)
    by reflexivity.
  rewrite Hc. simpl. rec_simpl. rewrite Hw. simpl. rewrite Hrw. simpl.
  rec_simpl. rewrite andb_true_r, Hfit. simpl.
  rewrite Hw. simpl. rec_simpl. rewrite Ht. simpl. rec_simpl.
  rewrite length_insert, Hlb, Hfa. simpl. split; [done|].
  by rewrite list_lookup_insert_eq by done.
Qed.

Lemma refund_permission_grants_witness :
  ∃ w, wallets paid !! 0%nat = Some w ∧ user w = 1%nat
      ∧ can_refund (day 10) (payment_entry (day 0) 5000) = true
      ∧ (fits 15 (balance w + 5000) && fits 15 (total_income w + 5000)
         = true →
         (exec (day 10) (op_process_refund 0) paid).1 = Ok ()
         ∧ balance <$> wallets (exec (day 10) (op_process_refund 0) paid).2
                         !! 0%nat
           = Some (balance w + 5000)).
Proof.
  exact (refund_permission_grants (day 10) 1 0
    (payment_entry (day 0) 5000) paid eq_refl eq_refl eq_refl).
Defined.

(** ** The withdraw and transfer actions of the API *)

Lemma truthy_Some (p : option string) :
  truthy p = true → ∃ s, p = Some s ∧ s ≠ "".
Proof.
  destruct p as [s|]; simpl; [|done]. intros H. exists s. split; [done|].
  apply negb_true_iff, bool_decide_eq_false in H. done.
Qed.

Lemma check_payment_password_true check_password secret password :
  check_payment_password check_password secret password = true →
  payment_password secret ≠ ""
  ∧ check_password password (payment_password secret) = true.
Proof.
  unfold check_payment_password. case_bool_decide; [done|]. done.
Qed.

Lemma withdraw_raise_unchanged now self a dest ref db e :
  (withdraw now self a dest ref db).1 = Raise e →
  (withdraw now self a dest ref db).2 = db.
Proof.
  unfold withdraw, can_spend. unfold_ops. simpl. run_cases; fk_in_range;
    intros; simplify_eq.
Qed.

Lemma withdraw_ok now self a dest ref db r db' :
  withdraw now self a dest ref db = (Ok r, db') →
  0 < a ∧ a ≤ balance self
  ∧ ∃ row, wallets db !! id self = Some row
      ∧ wallets db' !! id self
        = Some (set_balance (balance self - a)
                  (set_total_expense (total_expense self + a)
                     (set_last_transaction_at (Some now)
                        (set_updated_at now row)))).
Proof.
  unfold withdraw, can_spend. unfold_ops. simpl. run_cases; fk_in_range;
    guards.
  intros. simplify_eq. split; [done|]. split; [done|].
  eexists. split; [done|]. simpl.
  apply list_lookup_insert_eq. by eapply lookup_lt_Some.
Qed.

Lemma transfer_to_ok now self target a ref db r db' :
  transfer_to now self target a ref db = (Ok r, db') →
  0 < a ∧ a ≤ balance self ∧ wallet_status self = normal
  ∧ is_active self = true ∧ currency target = currency self.
Proof.
  unfold transfer_to, can_spend. unfold_ops. simpl. run_cases; fk_in_range;
    guards.
  intros. simplify_eq. done.
Qed.

Lemma get_or_create_db now owner c db :
  (get_or_create now owner c db).2 = db
  ∨ ((∀ w, w ∈ wallets db → user w ≠ owner)
     ∧ get_or_create now owner c db
       = (Ok (new_wallet now (length (wallets db)) owner c, true),
          mkDB (wallets db ++ [new_wallet now (length (wallets db)) owner c])
               (transactions db))).
Proof.
  unfold get_or_create, objects_create_wallet, mbind, M_bind, mret, M_ret.
  destruct (list_find _ (wallets db)) as [[pk w]|] eqn:Hfind; simpl;
    [by left|].
  apply list_find_None in Hfind. right.
  assert (Hnone : ∀ w, w ∈ wallets db → user w ≠ owner).
  { intros w Hw. by apply (proj1 (Forall_forall _ _) Hfind w). }
  split; [done|].
  rewrite bool_decide_eq_false_2; [done|].
  rewrite Exists_exists. intros (x & Hx & Hux). by apply (Hnone x).
Qed.

(** X17. The withdraw action answers with success only if the amount lies
    between 0.01 and 1000000.00 and within the balance of the wallet, and
    then the row of the wallet holds the balance less the amount; above
    1000.00, or whenever a password is sent, success also needs a payment
    password to be set on the wallet and the one sent to match it.  Every
    other answer leaves the database as it was. *)
Theorem withdraw_view_guard (check_password : string → string → bool)
    (now : datetime) (secret : PaymentSecret) (wallet : UserWallet)
    (data : WithdrawData) (db : DB) :
  let res := withdraw_view check_password now secret wallet data db in
  (res.1 = resp_success →
     (1 ≤ w_amount data ∧ w_amount data ≤ 100000000)
     ∧ w_amount data ≤ balance wallet
     ∧ (balance <$> wallets res.2 !! id wallet
        = Some (balance wallet - w_amount data))
     ∧ (100000 < w_amount data ∨ truthy (w_password data) = true →
        ∃ p, w_password data = Some p ∧ p ≠ ""
             ∧ payment_password secret ≠ ""
             ∧ check_password p (payment_password secret) = true))
  ∧ (res.1 ≠ resp_success → res.2 = db).
Proof.
  intros res. subst res. unfold withdraw_view.
  destruct (withdraw_is_valid data) eqn:Hv; [|by split].
  unfold withdraw_is_valid, amount_field_valid, validate_amount,
    withdraw_validate in Hv.
  repeat match goal with
  | H : _ && _ = true |- _ => apply andb_true_iff in H as [? ?]
  end.
  destruct (truthy (w_password data)) eqn:Ht; simpl.
  - destruct (check_payment_password _ _ _) eqn:Hc; simpl; [|by split].
    destruct (withdraw _ _ _ _ _ _) as [[r|e] db'] eqn:Hw; simpl.
    + split; [intros _|done].
      apply withdraw_ok in Hw as (? & ? & row & ? & Hrow).
      guards. split; [lia|]. split; [done|]. split.
      { by rewrite Hrow. }
      intros _. apply truthy_Some in Ht as (p & Hp & ?).
      rewrite Hp in Hc. simpl in Hc.
      apply check_payment_password_true in Hc as [? ?]. by exists p.
    + pose proof (withdraw_raise_unchanged now wallet (w_amount data)
        (destination_of data) "" db e) as Hu.
      rewrite Hw in Hu. simpl in Hu. rewrite (Hu eq_refl).
      by destruct e; simpl; split.
  - destruct (withdraw _ _ _ _ _ _) as [[r|e] db'] eqn:Hw; simpl.
    + split; [intros _|done].
      apply withdraw_ok in Hw as (? & ? & row & ? & Hrow).
      guards. split; [lia|]. split; [done|]. split.
      { by rewrite Hrow. }
      intros [Hbig|?]; [|done]. exfalso.
      destruct (Z.eqb_spec (w_amount data) 0); [lia|].
      destruct (Z.ltb_spec 100000 (w_amount data)); [|lia].
      simpl in *. congruence.
    + pose proof (withdraw_raise_unchanged now wallet (w_amount data)
        (destination_of data) "" db e) as Hu.
      rewrite Hw in Hu. simpl in Hu. rewrite (Hu eq_refl).
      by destruct e; simpl; split.
Qed.

Lemma withdraw_view_guard_witness :
  balance <$> wallets
    (withdraw_view sample_check_password (day 1) pin rich
       (mkWithdrawData 200000 None (Some "2468")) rich_wallets).2 !! 0%nat
  = Some 300000.
Proof.
  exact (proj1 (proj2 (proj2 (proj1 (withdraw_view_guard
    sample_check_password (day 1) pin rich
    (mkWithdrawData 200000 None (Some "2468")) rich_wallets) eq_refl)))).
Defined.

(** X18. The transfer action answers with success only if a password was
    sent, a payment password is set on the wallet and the two match, the
    target is a user other than the requester, the amount lies between
    0.01 and 1000000.00 and within the balance, and the wallet is normal
    and active.  In particular no transfer succeeds from a wallet on
    which no payment password was set. *)
Theorem transfer_view_guard (check_password : string → string → bool)
    (now : datetime) (users : list nat) (request_user : nat)
    (secret : PaymentSecret) (wallet : UserWallet) (data : TransferData)
    (db : DB) :
  let res :=
    transfer_view check_password now users request_user secret wallet data
      db in
  (res.1 = resp_success →
     (∃ p, t_password data = Some p ∧ p ≠ ""
           ∧ payment_password secret ≠ ""
           ∧ check_password p (payment_password secret) = true)
     ∧ t_target_user_id data ∈ users
     ∧ t_target_user_id data ≠ request_user
     ∧ (1 ≤ t_amount data ∧ t_amount data ≤ 100000000)
     ∧ t_amount data ≤ balance wallet
     ∧ wallet_status wallet = normal ∧ is_active wallet = true)
  ∧ (payment_password secret = "" → res.1 ≠ resp_success).
Proof.
  intros res.
  assert (Hmain : res.1 = resp_success →
     (∃ p, t_password data = Some p ∧ p ≠ ""
           ∧ payment_password secret ≠ ""
           ∧ check_password p (payment_password secret) = true)
     ∧ t_target_user_id data ∈ users
     ∧ t_target_user_id data ≠ request_user
     ∧ (1 ≤ t_amount data ∧ t_amount data ≤ 100000000)
     ∧ t_amount data ≤ balance wallet
     ∧ wallet_status wallet = normal ∧ is_active wallet = true).
  { subst res. unfold transfer_view.
    destruct (transfer_is_valid users request_user data) eqn:Hv; [|done].
    unfold transfer_is_valid, amount_field_valid, validate_amount,
      validate_target_user_id, transfer_validate in Hv.
    repeat match goal with
    | H : _ && _ = true |- _ => apply andb_true_iff in H as [? ?]
    end.
    destruct (check_payment_password _ _ _) eqn:Hc; simpl; [|done].
    guards.
    rewrite (bool_decide_eq_true_2 (t_target_user_id data ∈ users)) by done.
    simpl.
    destruct (get_or_create _ _ _ _) as [[[tw created]|e] db1]; simpl;
      [|by destruct e].
    destruct (bool_decide (currency tw ≠ currency wallet)); simpl; [done|].
    destruct (transfer_to _ _ _ _ _ _) as [[r|e] db'] eqn:Ht; simpl;
      [|by destruct e].
    intros _. apply transfer_to_ok in Ht as (? & ? & ? & ? & ?).
    match goal with H : truthy _ = true |- _ =>
      apply truthy_Some in H as (p & Hp & ?) end.
    rewrite Hp in Hc. simpl in Hc.
    apply check_payment_password_true in Hc as [? ?].
    split; [by exists p|]. repeat split; try done; try lia. }
  split; [done|].
  intros Hblank Hs. destruct (Hmain Hs) as [(p & _ & _ & Hne & _) _]. done.
Qed.

Lemma transfer_view_guard_witness :
  (transfer_view sample_check_password (day 1) [1; 2]%nat 1 no_secret alice
     (mkTransferData 3000 2 (Some "2468")) two_wallets).1
  ≠ resp_success.
Proof.
  exact (proj2 (transfer_view_guard sample_check_password (day 1)
    [1; 2]%nat 1 no_secret alice (mkTransferData 3000 2 (Some "2468"))
    two_wallets) eq_refl).
Defined.

(** X19. A transfer to a user who has no wallet yet opens one before the
    sender is checked: when the request is valid and the password matches
    but [can_spend] refuses the sender, the action answers with the error
    of [can_spend], moves no money and writes no ledger row, and yet the
    database keeps the new, empty wallet of the target user. *)
Theorem refused_transfer_keeps_new_wallet
    (check_password : string → string → bool) (now : datetime)
    (users : list nat) (request_user : nat) (secret : PaymentSecret)
    (wallet : UserWallet) (data : TransferData) (db : DB) :
  transfer_is_valid users request_user data = true →
  check_payment_password check_password secret
    (password_of (t_password data)) = true →
  (∀ w, w ∈ wallets db → user w ≠ t_target_user_id data) →
  (can_spend wallet (t_amount data)).1 = false →
  transfer_view check_password now users request_user secret wallet data db
  = (resp_error
       (value_error (error_of_reason (can_spend wallet (t_amount data)).2)),
     mkDB (wallets db
           ++ [new_wallet now (length (wallets db)) (t_target_user_id data)
                 (currency wallet)])
          (transactions db)).
Proof.
  intros Hv Hc Hnone Hsp. unfold transfer_view. rewrite Hv, Hc. simpl.
  unfold transfer_is_valid, amount_field_valid, validate_amount,
    validate_target_user_id, transfer_validate in Hv.
  repeat match goal with
  | H : _ && _ = true |- _ => apply andb_true_iff in H as [? ?]
  end. guards.
  rewrite bool_decide_eq_true_2 by done. simpl.
  destruct (get_or_create_db now (t_target_user_id data) (currency wallet) db)
    as [Hsame|[_ ->]].
  - exfalso. revert Hsame.
    unfold get_or_create, objects_create_wallet, mbind, M_bind, mret, M_ret.
    destruct (list_find _ (wallets db)) as [[pk w]|] eqn:Hfind; simpl.
    + apply list_find_Some in Hfind as (Hl & Hu & _).
      apply list_elem_of_lookup_2 in Hl. intros _. by apply (Hnone w).
    + rewrite bool_decide_eq_false_2
        by (rewrite Exists_exists; intros (x & Hx & Hux);
            by apply (Hnone x)).
      simpl. intros Heq.
      apply (f_equal (λ d, length (wallets d))) in Heq. simpl in Heq.
      rewrite length_app in Heq. simpl in Heq. lia.
  - rewrite bool_decide_eq_false_2 by (simpl; tauto).
    unfold transfer_to. destruct (Z.leb_spec (t_amount data) 0); [lia|].
    rewrite bool_decide_eq_false_2 by (simpl; tauto).
    destruct (can_spend wallet (t_amount data)) as [ok reason].
    simpl in Hsp. subst ok. simpl. unfold raise.
    by destruct reason.
Qed.

Lemma refused_transfer_keeps_new_wallet_witness :
  transfer_view sample_check_password (day 1) [1; 2; 3]%nat 1 pin alice
    (mkTransferData 20000 3 (Some "2468")) two_wallets
  = (resp_error (value_error InsufficientFundsError),
     mkDB [alice; bob; new_wallet (day 1) 2 3 CNY] []).
Proof.
  apply (refused_transfer_keeps_new_wallet sample_check_password (day 1)
    [1; 2; 3]%nat 1 pin alice (mkTransferData 20000 3 (Some "2468"))
    two_wallets); try reflexivity.
  intros w Hw. apply list_elem_of_lookup in Hw as [i Hi].
  destruct i as [|[|i]]; simpl in Hi; inversion Hi; discriminate.
Defined.

(** X20. The transfer action rules out the requester as the target, not
    the owner of the wallet.  When a requester other than the owner, whom
    [UserWalletPermission] admits only as a member of the staff, transfers
    from a wallet to the user who owns it, the action answers with success
    on a valid request whose amounts fit their columns (the lifetime
    expense, the balance and the lifetime income of the wallet, each with
    the amount added); sender and receiver are then the same row, which
    ends with the balance raised by the amount, while the two new ledger
    rows record the balance less the amount and the balance plus the
    amount. *)
Theorem transfer_view_to_owner (check_password : string → string → bool)
    (now : datetime) (users : list nat) (request_user : nat)
    (is_staff : bool) (secret : PaymentSecret) (pk : nat)
    (row : UserWallet) (data : TransferData) (db : DB) :
  owners_unique db → wallets db !! pk = Some row →
  t_target_user_id data = user row →
  transfer_is_valid users request_user data = true →
  check_payment_password check_password secret
    (password_of (t_password data)) = true →
  (can_spend row (t_amount data)).1 = true →
  fits 15 (total_expense row + t_amount data) = true →
  fits 15 (balance row + t_amount data) = true →
  fits 15 (total_income row + t_amount data) = true →
  let res :=
    transfer_view check_password now users request_user secret
      (set_id pk row) data db in
  res.1 = resp_success
  ∧ has_object_permission request_user is_staff (set_id pk row) = is_staff
  ∧ balance <$> wallets res.2 !! pk = Some (balance row + t_amount data)
  ∧ length (wallets res.2) = length (wallets db)
  ∧ balance_after <$> drop (length (transactions db)) (transactions res.2)
    = [balance row - t_amount data; balance row + t_amount data].
Proof.
  intros Hu Hrow Ht Hv Hc Hsp Hf1 Hf2 Hf3 res. subst res.
  unfold transfer_view.
  rewrite Hv, Hc. simpl.
  unfold transfer_is_valid, amount_field_valid, validate_amount,
    validate_target_user_id, transfer_validate in Hv.
  repeat match goal with
  | H : _ && _ = true |- _ => apply andb_true_iff in H as [? ?]
  end. guards.
  rewrite (bool_decide_eq_true_2 (t_target_user_id data ∈ users)) by done.
  simpl.
  pose proof (lookup_lt_Some _ _ _ Hrow) as Hlt.
  pose proof (lookup_lt_length _ _ _ Hrow) as Hlb.
  unfold get_or_create.
  rewrite (list_find_owner _ _ _ _ Hu Hrow (eq_sym Ht)). simpl.
  rewrite (bool_decide_eq_false_2 (currency row ≠ currency row)) by tauto.
  unfold transfer_to, can_spend in *. unfold_ops. simpl in *.
  destruct (Z.leb_spec (t_amount data) 0); [lia|].
  rewrite (bool_decide_eq_false_2 (currency row ≠ currency row)) by tauto.
  destruct (bool_decide (wallet_status row ≠ normal)); [done|].
  destruct (negb (is_active row)); [done|].
  destruct (Z.ltb_spec (balance row) (t_amount data)); [done|]. simpl.
  pose proof (proj1 (fits_spec _ _) Hf1).
  pose proof (proj1 (fits_spec _ _) Hf2).
  pose proof (proj1 (fits_spec _ _) Hf3).
  assert (Hf4 : fits 15 (balance row - t_amount data) = true)
    by fits_goal.
  assert (Hf5 : fits 15 (t_amount data) = true) by fits_goal.
  rec_simpl. rewrite Hf1, Hf2, Hf3, Hf4. simpl.
  rewrite Hrow. simpl. rec_simpl.
  rewrite list_lookup_insert_eq by done. simpl. rec_simpl.
  rewrite Hf5, Hf4, Hf2. simpl.
  repeat (rewrite !length_insert, Hlb; simpl).
  rewrite list_lookup_insert_eq by (by rewrite length_insert).
  rewrite !length_insert.
  split; [done|]. split.
  { unfold has_object_permission. rec_simpl.
    rewrite (bool_decide_eq_false_2 (user row = request_user))
      by congruence.
    done. }
  split; [done|]. split; [done|].
  rewrite <- app_assoc. rewrite drop_app_length. done.
Qed.

Lemma transfer_view_to_owner_witness :
  balance <$> wallets
    (transfer_view sample_check_password (day 1) [1; 2; 9]%nat 9 pin
       (set_id 0 alice) (mkTransferData 3000 1 (Some "2468"))
       two_wallets).2 !! 0%nat
  = Some 13000.
Proof.
  refine (proj1 (proj2 (proj2 (transfer_view_to_owner sample_check_password
    (day 1) [1; 2; 9]%nat 9 true pin 0 alice
    (mkTransferData 3000 1 (Some "2468")) two_wallets _ eq_refl eq_refl
    eq_refl eq_refl eq_refl eq_refl eq_refl eq_refl)))).
  repeat constructor; simpl; intros H; inversion H; subst;
    try discriminate;
    match goal with H' : _ ∈ [] |- _ => inversion H' end.
Defined.
